(** * RESTLab5: the dynamic table engine of [rest.py]

    A shallow embedding of the classes [DynamicTable] and [Database] and of
    the handlers of [rest.py] that work on rows, columns and tables,
    followed by the properties the specification states about them and by
    further properties of the code.

    Conventions of the embedding:
    - a Python method that mutates [self] and may raise is a function from the
      object to a pair: how the call ended ([Return] or [Raise]) and the
      object as the call left it, so that a mutation made before a [raise]
      stays visible;
    - a row (a Python [dict]) is a [gmap string value]; a table owns its list
      of columns and its rows (the handlers build a fresh list for every
      table, and every row is a [dict] made by [add_row] or [update_row]);
      two tables built by hand on one list object, which would share their
      columns, are not expressed;
    - a cell holds a JSON scalar: [None], a [bool], an [int], a [float]
      (an IEEE binary64, Rocq's primitive float) or a [str].  A [float]
      carries the identity of its object, which Python consults before [==]
      when it looks a tuple up in a set and which tells for a NaN only; of
      the other scalars the value alone is kept;
    - a column type is the class of one of those scalars: the four type tags
      of the specification and [NoneType];
    - a string is a sequence of one-byte characters. *)

From Stdlib Require Import ZArith String Ascii List Lia.
From Stdlib Require DecimalString.
From Stdlib.Floats Require PrimFloat SpecFloat FloatOps.
From stdpp Require Import gmap strings list fin_maps.

Local Open Scope string_scope.
Local Open Scope list_scope.

(** ** Python values and classes *)

(** The classes of the scalars: [str], [int], [bool], [float] are the four
    type tags of the specification; [NoneType] is the class of [None]. *)
Inductive pyclass : Set :=
| Cstr
| Cint
| Cbool
| Cfloat
| CNoneType.

#[global] Instance pyclass_eq_dec : EqDecision pyclass.
Proof. solve_decision. Defined.

(** [object] is the identity of a [float] object ([id(value)]): two cells
    hold the very same [float] exactly when they have the same [object]. *)
Inductive value : Set :=
| VNone
| VBool (b : bool)
| VInt (z : Z)
| VFloat (f : PrimFloat.float) (object : N)
| VStr (s : string).

(** [type(value)] *)
Definition type_of (v : value) : pyclass :=
  match v with
  | VNone => CNoneType
  | VBool _ => Cbool
  | VInt _ => Cint
  | VFloat _ _ => Cfloat
  | VStr _ => Cstr
  end.

(** [issubclass(c, d)]: every class is a subclass of itself, and [bool] is a
    subclass of [int]. *)
Definition issubclass (c d : pyclass) : bool :=
  match c, d with
  | Cbool, Cint => true
  | _, _ => bool_decide (c = d)
  end.

(** [isinstance(value, column_type)] *)
Definition isinstance (v : value) (column_type : pyclass) : bool :=
  issubclass (type_of v) column_type.

(** The four type tags of the specification. *)
Definition is_TypeTag (c : pyclass) : bool :=
  match c with
  | Cstr | Cint | Cbool | Cfloat => true
  | CNoneType => false
  end.

(** ** Equality of values ([==])

    Python compares [bool], [int] and [float] by their exact numeric value
    ([True == 1 == 1.0], [0.0 == -0.0]), a NaN is equal to nothing, [None]
    is equal to [None] only and a string to the same string only.  A value is
    mapped to a canonical comparison key; two values are equal when both have
    a key and the keys are the same.  A finite nonzero number has the key
    [NumDyadic neg m e], standing for (-1)^neg * m * 2^e with [m] odd. *)

Inductive number : Set :=
| NumZero
| NumInf (neg : bool)
| NumDyadic (neg : bool) (m : positive) (e : Z).

Inductive cmp_key : Set :=
| KNone
| KStr (s : string)
| KNum (n : number).

#[global] Instance number_eq_dec : EqDecision number.
Proof. solve_decision. Defined.

#[global] Instance cmp_key_eq_dec : EqDecision cmp_key.
Proof. solve_decision. Defined.

(** Moves the factors two of the mantissa into the exponent. *)
Fixpoint strip_twos (m : positive) (e : Z) : positive * Z :=
  match m with
  | xO m' => strip_twos m' (e + 1)
  | _ => (m, e)
  end.

Definition number_of_Z (z : Z) : number :=
  match z with
  | Z0 => NumZero
  | Zpos p => let '(m, e) := strip_twos p 0 in NumDyadic false m e
  | Zneg p => let '(m, e) := strip_twos p 0 in NumDyadic true m e
  end.

Definition number_of_float (f : PrimFloat.float) : option number :=
  match FloatOps.Prim2SF f with
  | SpecFloat.S754_zero _ => Some NumZero
  | SpecFloat.S754_infinity neg => Some (NumInf neg)
  | SpecFloat.S754_nan => None
  | SpecFloat.S754_finite neg m e =>
      let '(m', e') := strip_twos m e in Some (NumDyadic neg m' e')
  end.

Definition value_key (v : value) : option cmp_key :=
  match v with
  | VNone => Some KNone
  | VBool b => Some (KNum (number_of_Z (if b then 1 else 0)))
  | VInt z => Some (KNum (number_of_Z z))
  | VFloat f _ => KNum <$> number_of_float f
  | VStr s => Some (KStr s)
  end.

(** [a == b] *)
Definition py_eq (a b : value) : bool :=
  match value_key a, value_key b with
  | Some x, Some y => bool_decide (x = y)
  | _, _ => false
  end.

(** ** Equality of the items of a tuple ([a is b or a == b])

    A tuple compares its items, and a set looks a tuple up, with the test
    [a is b or a == b]: the very same object counts as equal before [==] is
    asked.  Every value but a NaN is [==] to itself, so the test [a is b]
    adds to [a == b] for a NaN only: a NaN is equal to nothing, yet a tuple
    that holds a NaN object is equal to a tuple that holds the same object
    at that place.  ([json] decodes every [NaN] of every body to one object,
    the [NaN] of its decoder, while two calls of [float('nan')] make two.) *)

(** The object of a NaN. *)
Definition nan_object (v : value) : option N :=
  match v with
  | VFloat f object =>
      match FloatOps.Prim2SF f with
      | SpecFloat.S754_nan => Some object
      | _ => None
      end
  | _ => None
  end.

(** [a is b], for a NaN [a]. *)
Definition same_NaN (a b : value) : bool :=
  match nan_object a, nan_object b with
  | Some i, Some j => bool_decide (i = j)
  | _, _ => false
  end.

(** [a is b or a == b] *)
Definition py_item_eq (a b : value) : bool :=
  same_NaN a b || py_eq a b.

(** [t1 == t2] for two tuples: same length and equal item by item. *)
Fixpoint tuple_eqb (t1 t2 : list value) : bool :=
  match t1, t2 with
  | [], [] => true
  | a :: t1', b :: t2' => py_item_eq a b && tuple_eqb t1' t2'
  | _, _ => false
  end.

(** The one NaN object [json] gives for every [NaN] it decodes. *)
Definition json_NaN : value := VFloat PrimFloat.nan 0.

(** ** Exceptions and outcomes *)

(** What the engine raises, under the names of the specification.  In
    [rest.py], [DuplicateColumn], [UnknownColumn], [ArityMismatch],
    [TypeMismatch], [DuplicateTable] and [UnknownTable] are [ValueError]s
    told apart by their message, [IndexOutOfBounds] is [IndexError],
    [KeyError] is what a [dict] raises for a missing key, and [TypeError] is
    what [len] raises for an object that has no length. *)
Inductive exn : Set :=
| DuplicateColumn (column_name : string)
| UnknownColumn (column_name : string)
| ArityMismatch
| TypeMismatch (column_name : string) (expected actual : pyclass)
| IndexOutOfBounds
| KeyError (key : string)
| DuplicateTable (table_name : string)
| UnknownTable (table_name : string)
| TypeError.

Inductive outcome (A : Type) : Type :=
| Return (a : A)
| Raise (e : exn).

Arguments Return {A} a.
Arguments Raise {A} e.

(** ** DynamicTable *)

Abbreviation Row := (gmap string value).

Record DynamicTable : Type := mkTable {
  column_info : list (string * pyclass);
  rows : list Row
}.

(** [DynamicTable(column_info)] *)
Definition new_table (column_info : list (string * pyclass)) : DynamicTable :=
  {| column_info := column_info; rows := [] |}.

(** [[col[0] for col in self.column_info]] *)
Definition column_names (self : DynamicTable) : list string :=
  (column_info self).*1.

(** [dict(pairs)]: a later pair overwrites an earlier one with the same key. *)
Definition py_dict (pairs : list (string * value)) : Row :=
  fold_left (λ d kv, <[kv.1 := kv.2]> d) pairs ∅.

(** [zip(a, b)] *)
Fixpoint py_zip {A B : Type} (a : list A) (b : list B) : list (A * B) :=
  match a, b with
  | x :: a', y :: b' => (x, y) :: py_zip a' b'
  | _, _ => []
  end.

Definition add_column (self : DynamicTable) (column_name : string)
    (column_type : pyclass) : outcome unit * DynamicTable :=
  if bool_decide (column_name ∈ column_names self) then
    (Raise (DuplicateColumn column_name), self)
  else
    (Return tt,
     {| column_info := column_info self ++ [(column_name, column_type)];
        rows := (λ row : Row, <[column_name := VNone]> row) <$> rows self |}).

(** [for row in rows: del row[column_name]]: the rows before the first one
    that lacks the key have lost it when the [KeyError] is raised. *)
Fixpoint del_key_rows (column_name : string) (rs : list Row)
    : outcome unit * list Row :=
  match rs with
  | [] => (Return tt, [])
  | row :: rs' =>
      match row !! column_name with
      | None => (Raise (KeyError column_name), row :: rs')
      | Some _ =>
          let '(o, rs'') := del_key_rows column_name rs' in
          (o, delete column_name row :: rs'')
      end
  end.

(** [list_find] gives the first position of the name, the [index] of the
    code, or [None] when the name is not in the list. *)
Definition delete_column (self : DynamicTable) (column_name : string)
    : outcome unit * DynamicTable :=
  match list_find (λ name, name = column_name) (column_names self) with
  | None => (Raise (UnknownColumn column_name), self)
  | Some (index, _) =>
      let column_info' := delete index (column_info self) in
      let '(o, rows') := del_key_rows column_name (rows self) in
      (o, {| column_info := column_info'; rows := rows' |})
  end.

(** The validation loop of [add_row] and [update_row], from position [i] on:
    [value = values[i]], then the [isinstance] test. *)
Fixpoint validate (i : nat) (columns : list (string * pyclass))
    (values validated_values : list value) : outcome (list value) :=
  match columns with
  | [] => Return validated_values
  | (column_name, column_type) :: columns' =>
      match values !! i with
      | None => Raise IndexOutOfBounds
      | Some v =>
          if isinstance v column_type then
            validate (S i) columns' values (validated_values ++ [v])
          else Raise (TypeMismatch column_name column_type (type_of v))
      end
  end.

Definition add_row (self : DynamicTable) (values : list value)
    : outcome unit * DynamicTable :=
  if bool_decide (length values ≠ length (column_info self)) then
    (Raise ArityMismatch, self)
  else
    match validate 0 (column_info self) values [] with
    | Raise e => (Raise e, self)
    | Return validated_values =>
        let row := py_dict (py_zip (column_names self) validated_values) in
        (Return tt,
         {| column_info := column_info self; rows := rows self ++ [row] |})
    end.

Definition update_row (self : DynamicTable) (row_index : Z)
    (values : list value) : outcome unit * DynamicTable :=
  if ((row_index <? 0) || (row_index >=? Z.of_nat (length (rows self))))%Z then
    (Raise IndexOutOfBounds, self)
  else if bool_decide (length values ≠ length (column_info self)) then
    (Raise ArityMismatch, self)
  else
    match validate 0 (column_info self) values [] with
    | Raise e => (Raise e, self)
    | Return validated_values =>
        let row := py_dict (py_zip (column_names self) validated_values) in
        (Return tt,
         {| column_info := column_info self;
            rows := <[Z.to_nat row_index := row]> (rows self) |})
    end.

(** [tuple(row[column] for column, _ in column_info)]: the first column the
    row has no key for raises [KeyError]. *)
Fixpoint key_values (columns : list (string * pyclass)) (row : Row)
    : outcome (list value) :=
  match columns with
  | [] => Return []
  | (column, _) :: columns' =>
      match row !! column with
      | None => Raise (KeyError column)
      | Some v =>
          match key_values columns' row with
          | Return vs => Return (v :: vs)
          | Raise e => Raise e
          end
      end
  end.

(** [key_values in seen_rows]: the set holds a tuple equal to it, items
    compared with [a is b or a == b].  (The set looks among the tuples of the
    same hash; equal items have the same hash, the same object trivially and
    [==] values by the rule of [hash], so equal tuples do.) *)
Definition seen (key : list value) (seen_rows : list (list value)) : bool :=
  existsb (tuple_eqb key) seen_rows.

(** The loop of [remove_duplicates] over the rows still to visit, with the
    set [seen_rows] and the list [unique_rows] built so far. *)
Fixpoint remove_duplicates_loop (columns : list (string * pyclass))
    (seen_rows : list (list value)) (unique_rows rs : list Row)
    : outcome (list Row) :=
  match rs with
  | [] => Return unique_rows
  | row :: rs' =>
      match key_values columns row with
      | Raise e => Raise e
      | Return key =>
          if seen key seen_rows then
            remove_duplicates_loop columns seen_rows unique_rows rs'
          else
            remove_duplicates_loop columns (key :: seen_rows)
              (unique_rows ++ [row]) rs'
      end
  end.

Definition remove_duplicates (self : DynamicTable)
    : outcome unit * DynamicTable :=
  match remove_duplicates_loop (column_info self) [] [] (rows self) with
  | Raise e => (Raise e, self)
  | Return unique_rows =>
      (Return tt, {| column_info := column_info self; rows := unique_rows |})
  end.

(** *** display_table *)

(** [str(z)] for an [int] *)
Definition int_str (z : Z) : string :=
  DecimalString.NilZero.string_of_int (Z.to_int z).

(** [s * n] *)
Fixpoint str_repeat (s : string) (n : nat) : string :=
  match n with
  | O => ""
  | S n' => s +:+ str_repeat s n'
  end.

Section Display.

(** [str(f)] for a [float]: the shortest decimal text that reads back as [f].
    Its digits play no part below, so the function is left open. *)
Variable float_str : PrimFloat.float → string.

(** [str(value)] *)
Definition py_str (v : value) : string :=
  match v with
  | VNone => "None"
  | VBool true => "True"
  | VBool false => "False"
  | VInt z => int_str z
  | VFloat f _ => float_str f
  | VStr s => s
  end.

(** [[str(row.get(column[0], "")) for column in self.column_info]] *)
Definition row_values (columns : list (string * pyclass)) (row : Row)
    : list string :=
  (λ column, py_str (default (VStr "") (row !! column.1))) <$> columns.

(** The lines [display_table] prints, one per call of [print]. *)
Definition display_table (self : DynamicTable) : list string :=
  let header := String.concat "|" (column_names self) in
  header
  :: str_repeat "-" (String.length header)
  :: ((λ row, String.concat "|" (row_values (column_info self) row))
        <$> rows self).

End Display.

(** ** Database *)

Record Database : Type := mkDatabase {
  tables : gmap string DynamicTable
}.

Definition add_table (self : Database) (table_name : string)
    (column_info : list (string * pyclass)) : outcome unit * Database :=
  match tables self !! table_name with
  | Some _ => (Raise (DuplicateTable table_name), self)
  | None =>
      (Return tt,
       {| tables := <[table_name := new_table column_info]> (tables self) |})
  end.

Definition remove_table (self : Database) (table_name : string)
    : outcome unit * Database :=
  match tables self !! table_name with
  | None => (Raise (UnknownTable table_name), self)
  | Some _ => (Return tt, {| tables := delete table_name (tables self) |})
  end.

(** ** The row-deletion handler *)

(** [del l[i]] on a list: a negative index counts from the end; outside
    [-len(l) .. len(l) - 1] it is an [IndexError] ([None] here). *)
Definition py_del_item {A : Type} (l : list A) (i : Z) : option (list A) :=
  let n := Z.of_nat (length l) in
  let i' := if (i <? 0)%Z then (i + n)%Z else i in
  if ((i' <? 0) || (i' >=? n))%Z then None
  else Some (delete (Z.to_nat i') l).

(** [del dynamic_table.rows[row_index]] *)
Definition del_rows_item (self : DynamicTable) (row_index : Z)
    : outcome unit * DynamicTable :=
  match py_del_item (rows self) row_index with
  | None => (Raise IndexOutOfBounds, self)
  | Some rows' =>
      (Return tt, {| column_info := column_info self; rows := rows' |})
  end.

(** What a handler answers: [jsonify({'message': ...}), status] or
    [jsonify({'error': ...}), status]. *)
Inductive response : Set :=
| Message (status : Z)
| Error (status : Z) (e : exn).

(** The handler of [DELETE /tables/<table_name>/rows/<int:row_index>].  The
    route's [int] converter matches digits only, so [row_index] is a natural
    number. *)
Definition delete_row (database : Database) (table_name : string)
    (row_index : N) : response * Database :=
  match tables database !! table_name with
  | None => (Error 404 (UnknownTable table_name), database)
  | Some dynamic_table =>
      match del_rows_item dynamic_table (Z.of_N row_index) with
      | (Raise e, _) => (Error 404 e, database)
      | (Return _, dynamic_table') =>
          (Message 200,
           {| tables := <[table_name := dynamic_table']> (tables database) |})
      end
  end.

(** ** The other handlers

    A handler answers, or lets an exception it does not catch pass.  The
    table it works on is an object of the database, so what the method did to
    it before raising stays in the database. *)

(** The class of an exception is [ValueError], [IndexError], [KeyError] or
    [TypeError]. *)
Definition is_ValueError (e : exn) : bool :=
  match e with
  | DuplicateColumn _ | UnknownColumn _ | ArityMismatch | TypeMismatch _ _ _
  | DuplicateTable _ | UnknownTable _ => true
  | IndexOutOfBounds | KeyError _ | TypeError => false
  end.

Definition is_IndexError (e : exn) : bool :=
  match e with
  | IndexOutOfBounds => true
  | _ => false
  end.

(** [try: method ... except <caught>: return error, 400] then
    [return message, status], for a method called on the table found under
    [table_name]. *)
Definition answer (caught : exn → bool) (status : Z) (database : Database)
    (table_name : string) (call : outcome unit * DynamicTable)
    : outcome response * Database :=
  let database' :=
    {| tables := <[table_name := call.2]> (tables database) |} in
  match call.1 with
  | Return _ => (Return (Message status), database')
  | Raise e =>
      if caught e then (Return (Error 400 e), database')
      else (Raise e, database')
  end.

(** [POST /tables/<table_name>/rows], for a body that has a list of scalars
    under the key 'values' *)
Definition add_row_route (database : Database) (table_name : string)
    (values : list value) : outcome response * Database :=
  match tables database !! table_name with
  | None => (Return (Error 404 (UnknownTable table_name)), database)
  | Some dynamic_table =>
      answer is_ValueError 201 database table_name (add_row dynamic_table values)
  end.

(** [PUT /tables/<table_name>/rows/<int:row_index>], for a body that has a
    list of scalars under the key 'values' *)
Definition update_row_route (database : Database) (table_name : string)
    (row_index : N) (values : list value) : outcome response * Database :=
  match tables database !! table_name with
  | None => (Return (Error 404 (UnknownTable table_name)), database)
  | Some dynamic_table =>
      answer (λ e, is_ValueError e || is_IndexError e) 200 database table_name
        (update_row dynamic_table (Z.of_N row_index) values)
  end.

(** [DELETE /tables/<table_name>/columns/<column_name>] *)
Definition delete_column_route (database : Database) (table_name : string)
    (column_name : string) : outcome response * Database :=
  match tables database !! table_name with
  | None => (Return (Error 404 (UnknownTable table_name)), database)
  | Some dynamic_table =>
      answer is_ValueError 200 database table_name
        (delete_column dynamic_table column_name)
  end.

(** [POST /tables/<table_name>/remove_duplicates] *)
Definition remove_duplicates_route (database : Database) (table_name : string)
    : outcome response * Database :=
  match tables database !! table_name with
  | None => (Return (Error 404 (UnknownTable table_name)), database)
  | Some dynamic_table =>
      answer is_ValueError 200 database table_name
        (remove_duplicates dynamic_table)
  end.

(** [DELETE /tables/<table_name>] *)
Definition remove_table_route (database : Database) (table_name : string)
    : outcome response * Database :=
  match tables database !! table_name with
  | None => (Return (Error 404 (UnknownTable table_name)), database)
  | Some _ =>
      match remove_table database table_name with
      | (Return _, database') => (Return (Message 200), database')
      | (Raise e, database') =>
          if is_ValueError e then (Return (Error 400 e), database')
          else (Raise e, database')
      end
  end.

(** ** What the body of a request may hold

    The handlers of [add_row] and [update_row] hand [data.get('values')] to
    the method as [json] decoded it.  For a body that is a JSON object this
    is [None] when the body has no key 'values' (or has [null] under it), a
    [bool], a number, a [str] or a list.  The methods use it through
    [len(values)] and [values[i]] only.  A list that holds a list or an
    object, and an object under 'values', are left out. *)
Inductive pyobject : Set :=
| Scalar (v : value)
| PyList (items : list value).

(** What [len(values)] counts and [values[i]] reads: the items of a list, the
    characters of a [str], each a [str] of one character; [None], a [bool]
    and a number have no length. *)
Definition py_items (values : pyobject) : option (list value) :=
  match values with
  | PyList items => Some items
  | Scalar (VStr s) => Some ((λ c, VStr (String c "")) <$> list_ascii_of_string s)
  | Scalar _ => None
  end.

(** [dynamic_table.add_row(values)]: [len(values)] comes first, and raises
    [TypeError] for an object without a length. *)
Definition add_row_object (self : DynamicTable) (values : pyobject)
    : outcome unit * DynamicTable :=
  match py_items values with
  | None => (Raise TypeError, self)
  | Some items => add_row self items
  end.

(** [dynamic_table.update_row(row_index, values)]: the test of the index
    comes first, [len(values)] second. *)
Definition update_row_object (self : DynamicTable) (row_index : Z)
    (values : pyobject) : outcome unit * DynamicTable :=
  match py_items values with
  | None =>
      if ((row_index <? 0) || (row_index >=? Z.of_nat (length (rows self))))%Z
      then (Raise IndexOutOfBounds, self)
      else (Raise TypeError, self)
  | Some items => update_row self row_index items
  end.

(** [POST /tables/<table_name>/rows] *)
Definition add_row_handler (database : Database) (table_name : string)
    (values : pyobject) : outcome response * Database :=
  match tables database !! table_name with
  | None => (Return (Error 404 (UnknownTable table_name)), database)
  | Some dynamic_table =>
      answer is_ValueError 201 database table_name
        (add_row_object dynamic_table values)
  end.

(** [PUT /tables/<table_name>/rows/<int:row_index>] *)
Definition update_row_handler (database : Database) (table_name : string)
    (row_index : N) (values : pyobject) : outcome response * Database :=
  match tables database !! table_name with
  | None => (Return (Error 404 (UnknownTable table_name)), database)
  | Some dynamic_table =>
      answer (λ e, is_ValueError e || is_IndexError e) 200 database table_name
        (update_row_object dynamic_table (Z.of_N row_index) values)
  end.

(** ** Sequences of operations on one table *)

Inductive operation : Type :=
| AddColumn (column_name : string) (column_type : pyclass)
| DeleteColumn (column_name : string)
| AddRow (values : list value)
| UpdateRow (row_index : Z) (values : list value)
| DeleteRow (row_index : N)
| RemoveDuplicates.

Definition run (op : operation) (self : DynamicTable)
    : outcome unit * DynamicTable :=
  match op with
  | AddColumn column_name column_type => add_column self column_name column_type
  | DeleteColumn column_name => delete_column self column_name
  | AddRow values => add_row self values
  | UpdateRow row_index values => update_row self row_index values
  | DeleteRow row_index => del_rows_item self (Z.of_N row_index)
  | RemoveDuplicates => remove_duplicates self
  end.

(** The tables reachable from [t0] by operations, failing ones included. *)
Inductive reachable (t0 : DynamicTable) : DynamicTable → Prop :=
| reachable_start : reachable t0 t0
| reachable_step t op : reachable t0 t → reachable t0 (run op t).2.

(** [run] over a list of operations, whatever each one's outcome. *)
Definition run_all (ops : list operation) (t : DynamicTable) : DynamicTable :=
  fold_left (λ t op, (run op t).2) ops t.

(** ** The objects built when the module is loaded *)

Definition table_info : list (string * pyclass) :=
  [("Name", Cstr); ("Age", Cint); ("City", Cstr); ("IsStudent", Cbool)].

Definition demo_rows : list (list value) :=
  [ [VStr "Alice"; VInt 25; VStr "New York"; VBool false];
    [VStr "Bob"; VInt 30; VStr "San Francisco"; VBool true];
    [VStr "Alice"; VInt 25; VStr "New York"; VBool false];
    [VStr "Charlie"; VInt 22; VStr "Los Angeles"; VBool true] ].

Definition table : DynamicTable :=
  fold_left (λ t values, (add_row t values).2) demo_rows (new_table table_info).

(** The database of the module: the table above under the name "Table1". *)
Definition database : Database := {| tables := {[ "Table1" := table ]} |}.

(** A session on the schema of that table; its fourth and sixth operations
    raise. *)
Definition session : list operation :=
  [ AddRow [VStr "Alice"; VInt 25; VStr "New York"; VBool false];
    AddRow [VStr "Bob"; VInt 30; VStr "San Francisco"; VBool true];
    AddRow [VStr "Alice"; VInt 25; VStr "New York"; VBool false];
    AddRow [VStr "Dave"; VInt 41];
    AddColumn "Email" Cstr;
    AddColumn "Age" Cfloat;
    RemoveDuplicates;
    DeleteColumn "City";
    UpdateRow 1 [VStr "Bob"; VInt 31; VBool true; VStr "bob@example.org"];
    DeleteRow 0 ].

(** * The notions of the specification *)

(** Lockstep: the key set of every row is the set of the column names. *)
Definition lockstep (t : DynamicTable) : Prop :=
  ∀ row, row ∈ rows t → dom row = list_to_set (C := gset string) (column_names t).

(** A well-formed table: unique column names, rows in lockstep. *)
Definition well_formed (t : DynamicTable) : Prop :=
  NoDup (column_names t) ∧ lockstep t.

(** Every value stored under a column is an instance of the column's class,
    or the absent marker. *)
Definition well_typed (t : DynamicTable) : Prop :=
  ∀ row column_name column_type v,
    row ∈ rows t → (column_name, column_type) ∈ column_info t →
    row !! column_name = Some v →
    v = VNone ∨ isinstance v column_type = true.

(** Every value is an instance of the class of its column. *)
Definition all_instances (columns : list (string * pyclass))
    (values : list value) : Prop :=
  Forall2 (λ column v, isinstance v column.2 = true) columns values.

(** The failures the specification documents for [add_row], [update_row] and
    [add_column]. *)
Definition documented_failure (e : exn) : Prop :=
  match e with
  | ArityMismatch | TypeMismatch _ _ _ | DuplicateColumn _ | IndexOutOfBounds =>
      True
  | _ => False
  end.

(** Two rows are duplicates when their values are equal for every column of
    the schema, in schema order.  Two values are equal as the items of two
    rows when they are [==] or the very same object, which is how Python
    compares the items of containers; the latter tells for a NaN only. *)
Definition same_cell (a b : option value) : bool :=
  match a, b with
  | Some x, Some y => py_item_eq x y
  | _, _ => false
  end.

Definition duplicate_rows (columns : list (string * pyclass)) (r1 r2 : Row)
    : bool :=
  forallb (λ column, same_cell (r1 !! column.1) (r2 !! column.1)) columns.

(** First occurrences: going through the rows in order, a row is kept when
    none of the rows before it ([earlier], kept or dropped) is a duplicate
    of it, and dropped otherwise. *)
Fixpoint first_occurrences (columns : list (string * pyclass))
    (earlier rs : list Row) : list Row :=
  match rs with
  | [] => []
  | row :: rs' =>
      if existsb (λ row0, duplicate_rows columns row0 row) earlier then
        first_occurrences columns (earlier ++ [row]) rs'
      else row :: first_occurrences columns (earlier ++ [row]) rs'
  end.

(** The row has a value under every column. *)
Definition covers (columns : list (string * pyclass)) (row : Row) : Prop :=
  Forall (λ column, is_Some (row !! column.1)) columns.

(** * Auxiliary definitions *)

(** [validate] reads [values] from position [i] on; this is the same loop
    over the values left to read. *)
Fixpoint check_values (columns : list (string * pyclass))
    (vs validated_values : list value) : outcome (list value) :=
  match columns with
  | [] => Return validated_values
  | (column_name, column_type) :: columns' =>
      match vs with
      | [] => Raise IndexOutOfBounds
      | v :: vs' =>
          if isinstance v column_type then
            check_values columns' vs' (validated_values ++ [v])
          else Raise (TypeMismatch column_name column_type (type_of v))
      end
  end.

(** The row [add_row] and [update_row] build from checked values. *)
Definition new_row (t : DynamicTable) (values : list value) : Row :=
  py_dict (py_zip (column_names t) values).

(** The three ways the checks of [add_row] and [update_row] end: a wrong
    number of values; a first position [j] whose value is not an instance of
    the column's class; or every value an instance. *)
Inductive checked (t : DynamicTable) (values : list value)
    : outcome unit → Prop :=
| checked_arity :
    length values ≠ length (column_info t) →
    checked t values (Raise ArityMismatch)
| checked_type j column_name column_type v :
    length values = length (column_info t) →
    column_info t !! j = Some (column_name, column_type) →
    values !! j = Some v →
    isinstance v column_type = false →
    all_instances (take j (column_info t)) (take j values) →
    checked t values (Raise (TypeMismatch column_name column_type (type_of v)))
| checked_ok :
    length values = length (column_info t) →
    all_instances (column_info t) values →
    checked t values (Return tt).

(** * Properties *)

(** ** The embedding on the objects of the module *)

(** What the module prints when it is loaded. *)
Example display_table_table float_str :
  display_table float_str table
  = [ "Name|Age|City|IsStudent";
      "-----------------------";
      "Alice|25|New York|False";
      "Bob|30|San Francisco|True";
      "Alice|25|New York|False";
      "Charlie|22|Los Angeles|True" ].
Proof. reflexivity. Qed.

Example py_eq_examples :
  py_eq (VBool true) (VInt 1) = true
  ∧ py_eq (VInt 1) (VFloat PrimFloat.one 0) = true
  ∧ py_eq (VInt 2) (VFloat PrimFloat.one 0) = false
  ∧ py_eq (VFloat PrimFloat.one 0) (VFloat PrimFloat.one 1) = true
  ∧ py_eq (VFloat PrimFloat.zero 0) (VFloat PrimFloat.neg_zero 1) = true
  ∧ py_eq (VFloat PrimFloat.nan 0) (VFloat PrimFloat.nan 0) = false
  ∧ py_eq (VInt 0) VNone = false
  ∧ py_eq (VStr "1") (VInt 1) = false.
Proof. repeat split; reflexivity. Qed.

(** [nan = float('nan'); (nan,) == (nan,)] is true and
    [(nan,) == (float('nan'),)] is false, while [nan == nan] is false. *)
Example py_item_eq_examples :
  py_item_eq (VFloat PrimFloat.nan 0) (VFloat PrimFloat.nan 0) = true
  ∧ py_item_eq (VFloat PrimFloat.nan 0) (VFloat PrimFloat.nan 1) = false
  ∧ py_item_eq json_NaN json_NaN = true
  ∧ py_item_eq (VFloat PrimFloat.nan 0) (VFloat PrimFloat.one 0) = false
  ∧ py_item_eq (VFloat PrimFloat.one 0) (VFloat PrimFloat.one 1) = true
  ∧ py_item_eq (VBool true) (VInt 1) = true
  ∧ py_item_eq (VInt 1) (VInt 2) = false.
Proof. repeat split; reflexivity. Qed.

(** [del rows[-1]] removes the last row: the list itself takes negative
    indices, which the route of [delete_row] never hands over. *)
Example del_rows_item_negative :
  del_rows_item table (-1)
  = (Return tt, {| column_info := table_info; rows := take 3 (rows table) |}).
Proof. reflexivity. Qed.

(** ** Classes and equality *)

Lemma isinstance_bool_int b : isinstance (VBool b) Cint = true.
Proof. reflexivity. Qed.

Lemma isinstance_None column_type :
  isinstance VNone column_type = true → column_type = CNoneType.
Proof. by destruct column_type. Qed.

Lemma py_eq_sym a b : py_eq a b = py_eq b a.
Proof.
  unfold py_eq. destruct (value_key a), (value_key b); try done.
  apply bool_decide_ext. naive_solver.
Qed.

Lemma py_eq_trans a b c : py_eq a b = true → py_eq b c = true → py_eq a c = true.
Proof.
  unfold py_eq.
  destruct (value_key a), (value_key b), (value_key c); try done.
  rewrite !bool_decide_eq_true. congruence.
Qed.

(** A NaN has no comparison key: it is [==] to nothing. *)
Lemma nan_object_value_key v object :
  nan_object v = Some object → value_key v = None.
Proof.
  destruct v as [| | |f o|]; simpl; try done.
  unfold number_of_float. by destruct (FloatOps.Prim2SF f).
Qed.

(** Apart from a NaN, [a is b or a == b] is [a == b]. *)
Lemma py_item_eq_py_eq a b : nan_object a = None → py_item_eq a b = py_eq a b.
Proof. intros Ha. unfold py_item_eq, same_NaN. by rewrite Ha. Qed.

Lemma same_NaN_sym a b : same_NaN a b = same_NaN b a.
Proof.
  unfold same_NaN. destruct (nan_object a), (nan_object b); try done.
  apply bool_decide_ext. naive_solver.
Qed.

Lemma py_item_eq_sym a b : py_item_eq a b = py_item_eq b a.
Proof. unfold py_item_eq. by rewrite same_NaN_sym, py_eq_sym. Qed.

Lemma py_item_eq_trans a b c :
  py_item_eq a b = true → py_item_eq b c = true → py_item_eq a c = true.
Proof.
  unfold py_item_eq. rewrite !orb_true_iff.
  intros [Hab|Hab] [Hbc|Hbc].
  - left. unfold same_NaN in *.
    destruct (nan_object a), (nan_object b), (nan_object c); try done.
    rewrite bool_decide_eq_true in *. congruence.
  - exfalso. unfold same_NaN in Hab.
    destruct (nan_object a); [|done].
    destruct (nan_object b) as [j|] eqn:Hb; [|done].
    unfold py_eq in Hbc. by rewrite (nan_object_value_key b j Hb) in Hbc.
  - exfalso. unfold same_NaN in Hbc.
    destruct (nan_object b) as [j|] eqn:Hb; [|done].
    unfold py_eq in Hab. rewrite (nan_object_value_key b j Hb) in Hab.
    by destruct (value_key a).
  - right. by eapply py_eq_trans.
Qed.

Lemma tuple_eqb_sym t1 t2 : tuple_eqb t1 t2 = tuple_eqb t2 t1.
Proof.
  revert t2. induction t1 as [|a t1 IH]; intros [|b t2]; simpl; try done.
  by rewrite py_item_eq_sym, IH.
Qed.

Lemma tuple_eqb_trans t1 t2 t3 :
  tuple_eqb t1 t2 = true → tuple_eqb t2 t3 = true → tuple_eqb t1 t3 = true.
Proof.
  revert t2 t3.
  induction t1 as [|a t1 IH]; intros [|b t2] [|c t3]; simpl; try done.
  rewrite !andb_true_iff. intros [Hab H12] [Hbc H23]. split.
  - by eapply py_item_eq_trans.
  - by eapply IH.
Qed.

(** ** The validation loop *)

Lemma validate_check_values i columns values acc :
  validate i columns values acc = check_values columns (drop i values) acc.
Proof.
  revert i acc. induction columns as [|[name ty] columns IH]; intros i acc.
  - done.
  - simpl. destruct (values !! i) as [v|] eqn:Hv.
    + rewrite (drop_S _ _ _ Hv). destruct (isinstance v ty); [apply IH | done].
    + by rewrite (drop_ge values i) by by apply lookup_ge_None.
Qed.

Lemma check_values_Return columns vs acc out :
  length vs = length columns →
  check_values columns vs acc = Return out →
  out = acc ++ vs ∧ all_instances columns vs.
Proof.
  revert vs acc. induction columns as [|[name ty] columns IH];
    intros [|v vs] acc Hlen Hc; simplify_eq/=.
  - split; [by rewrite app_nil_r | constructor].
  - destruct (isinstance v ty) eqn:Hi; [|done].
    apply IH in Hc as [-> Hall]; [|done]. split.
    + by rewrite <- app_assoc.
    + by constructor.
Qed.

Lemma check_values_all_instances columns vs acc :
  all_instances columns vs →
  check_values columns vs acc = Return (acc ++ vs).
Proof.
  intros Hall. revert acc.
  induction Hall as [|[name ty] v columns vs Hi Hall IH]; intros acc; simpl.
  - by rewrite app_nil_r.
  - simpl in Hi. rewrite Hi, IH. by rewrite <- app_assoc.
Qed.

Lemma check_values_Raise columns vs acc e :
  length vs = length columns →
  check_values columns vs acc = Raise e →
  ∃ j column_name column_type v,
    columns !! j = Some (column_name, column_type) ∧ vs !! j = Some v
    ∧ isinstance v column_type = false
    ∧ all_instances (take j columns) (take j vs)
    ∧ e = TypeMismatch column_name column_type (type_of v).
Proof.
  revert vs acc. induction columns as [|[name ty] columns IH];
    intros [|v vs] acc Hlen Hc; simplify_eq/=.
  destruct (isinstance v ty) eqn:Hi.
  - apply IH in Hc as (j & n & c & w & Hn & Hw & Hf & Hall & ->); [|done].
    exists (S j), n, c, w. split_and!; try done. simpl. by constructor.
  - simplify_eq. exists 0, name, ty, v. split_and!; try done. constructor.
Qed.

Lemma validate_Return t values out :
  length values = length (column_info t) →
  validate 0 (column_info t) values [] = Return out →
  out = values ∧ all_instances (column_info t) values.
Proof.
  rewrite validate_check_values, drop_0. apply check_values_Return.
Qed.

Lemma validate_all_instances t values :
  all_instances (column_info t) values →
  validate 0 (column_info t) values [] = Return values.
Proof.
  intros Hall. rewrite validate_check_values, drop_0.
  by rewrite check_values_all_instances.
Qed.

Lemma validate_Raise t values e :
  length values = length (column_info t) →
  validate 0 (column_info t) values [] = Raise e →
  ∃ j column_name column_type v,
    column_info t !! j = Some (column_name, column_type) ∧ values !! j = Some v
    ∧ isinstance v column_type = false
    ∧ all_instances (take j (column_info t)) (take j values)
    ∧ e = TypeMismatch column_name column_type (type_of v).
Proof.
  rewrite validate_check_values, drop_0. apply check_values_Raise.
Qed.

(** ** Rows built by [dict(zip(...))] *)

Lemma fold_insert_dom (pairs : list (string * value)) (d : Row) :
  dom (fold_left (λ d kv, <[kv.1 := kv.2]> d) pairs d)
  = dom d ∪ list_to_set pairs.*1.
Proof.
  revert d. induction pairs as [|[k v] pairs IH]; intros d; simpl.
  - by rewrite (right_id_L ∅ (∪)).
  - rewrite IH, dom_insert_L. apply set_eq. intros x.
    rewrite !elem_of_union. tauto.
Qed.

Lemma fold_insert_lookup (pairs : list (string * value)) (d : Row) k v :
  fold_left (λ d kv, <[kv.1 := kv.2]> d) pairs d !! k = Some v →
  (k, v) ∈ pairs ∨ d !! k = Some v.
Proof.
  revert d. induction pairs as [|[k' v'] pairs IH]; intros d; simpl.
  - by right.
  - intros [H|H]%IH; [left; by constructor|].
    destruct (decide (k' = k)) as [->|Hne].
    + rewrite lookup_insert_eq in H. simplify_eq. left. by constructor.
    + rewrite lookup_insert_ne in H by done. by right.
Qed.

Lemma py_zip_fst {A B} (a : list A) (b : list B) :
  length a = length b → (py_zip a b).*1 = a.
Proof.
  revert b. induction a as [|x a IH]; intros [|y b] Hlen; simplify_eq/=; [done|].
  by rewrite IH.
Qed.

Lemma py_zip_elem {A B} (a : list A) (b : list B) x y :
  (x, y) ∈ py_zip a b → x ∈ a ∧ y ∈ b.
Proof.
  revert b. induction a as [|x' a IH]; intros [|y' b]; simpl;
    try by intros ?%elem_of_nil.
  intros [?|[??]%IH]%elem_of_cons; simplify_eq; split; by constructor.
Qed.

Lemma new_row_dom t values :
  length values = length (column_info t) →
  dom (new_row t values) = list_to_set (column_names t).
Proof.
  intros Hlen. unfold new_row, py_dict. rewrite fold_insert_dom, py_zip_fst.
  - by rewrite dom_empty_L, (left_id_L ∅ (∪)).
  - unfold column_names. by rewrite length_fmap.
Qed.

Lemma new_row_lookup t values k v :
  new_row t values !! k = Some v → v ∈ values.
Proof.
  unfold new_row, py_dict. intros [H|H]%fold_insert_lookup.
  - by apply py_zip_elem in H as [_ ?].
  - by rewrite lookup_empty in H.
Qed.

(** ** The three ways [add_row] and [update_row] end *)

Lemma add_row_cases t values :
  ∃ o, checked t values o ∧
    add_row t values =
      (o, match o with
          | Return _ =>
              {| column_info := column_info t;
                 rows := rows t ++ [new_row t values] |}
          | Raise _ => t
          end).
Proof.
  unfold add_row. case_bool_decide as Hlen.
  - exists (Raise ArityMismatch). split; [by constructor | done].
  - destruct (validate 0 (column_info t) values []) as [out|e] eqn:Hv.
    + apply validate_Return in Hv as [-> Hall]; [|done].
      exists (Return tt). split; [by constructor | done].
    + apply validate_Raise in Hv as (j & n & c & v & Hn & Hin & Hi & Hall & ->);
        [|done].
      eexists. split; [by econstructor | done].
Qed.

Lemma update_row_cases t row_index values :
  (¬ (0 ≤ row_index < Z.of_nat (length (rows t)))%Z
   ∧ update_row t row_index values = (Raise IndexOutOfBounds, t))
  ∨ ((0 ≤ row_index < Z.of_nat (length (rows t)))%Z
     ∧ ∃ o, checked t values o ∧
         update_row t row_index values =
           (o, match o with
               | Return _ =>
                   {| column_info := column_info t;
                      rows := <[Z.to_nat row_index := new_row t values]> (rows t) |}
               | Raise _ => t
               end)).
Proof.
  unfold update_row.
  destruct ((row_index <? 0)%Z || (row_index >=? Z.of_nat (length (rows t)))%Z)
    eqn:Hb.
  - left. split; [lia | done].
  - right. split; [lia|]. case_bool_decide as Hlen.
    + exists (Raise ArityMismatch). split; [by constructor | done].
    + destruct (validate 0 (column_info t) values []) as [out|e] eqn:Hv.
      * apply validate_Return in Hv as [-> Hall]; [|done].
        exists (Return tt). split; [by constructor | done].
      * apply validate_Raise in Hv as (j & n & c & v & Hn & Hin & Hi & Hall & ->);
        [|done].
        eexists. split; [by econstructor | done].
Qed.

(** ** Where the rows of the other operations come from *)

Lemma del_key_rows_elem column_name rs o rs' row' :
  del_key_rows column_name rs = (o, rs') → row' ∈ rs' →
  ∃ row, row ∈ rs ∧ (row' = row ∨ row' = delete column_name row).
Proof.
  revert o rs'. induction rs as [|r rs IH]; intros o rs' Hd Hin; simpl in Hd.
  - simplify_eq. by apply elem_of_nil in Hin.
  - destruct (r !! column_name).
    + destruct (del_key_rows column_name rs) as [o1 rs1]. simplify_eq.
      apply elem_of_cons in Hin as [->|Hin].
      * exists r. split; [by left | by right].
      * destruct (IH _ _ eq_refl Hin) as (row & ? & ?).
        exists row. split; [by right | done].
    + simplify_eq. exists row'. split; [done | by left].
Qed.

(** When every row has the key, the loop deletes it from every row. *)
Lemma del_key_rows_all column_name rs :
  Forall (λ row : Row, is_Some (row !! column_name)) rs →
  del_key_rows column_name rs = (Return tt, delete column_name <$> rs).
Proof.
  induction 1 as [|r rs [v Hv] _ IH]; simpl; [done|]. by rewrite Hv, IH.
Qed.

Lemma remove_duplicates_loop_app columns seen_rows unique_rows rs :
  remove_duplicates_loop columns seen_rows unique_rows rs =
    match remove_duplicates_loop columns seen_rows [] rs with
    | Return out => Return (unique_rows ++ out)
    | Raise e => Raise e
    end.
Proof.
  revert seen_rows unique_rows.
  induction rs as [|r rs IH]; intros seen_rows unique_rows; simpl.
  - by rewrite app_nil_r.
  - destruct (key_values columns r) as [key|e]; [|done].
    destruct (seen key seen_rows); [apply IH|].
    rewrite (IH _ (unique_rows ++ [r])), (IH _ [r]).
    destruct (remove_duplicates_loop columns (key :: seen_rows) [] rs); [|done].
    by rewrite <- app_assoc.
Qed.

Lemma remove_duplicates_loop_sublist columns seen_rows rs out :
  remove_duplicates_loop columns seen_rows [] rs = Return out →
  sublist out rs.
Proof.
  revert seen_rows out.
  induction rs as [|r rs IH]; intros seen_rows out; simpl.
  - intros. by simplify_eq.
  - destruct (key_values columns r) as [key|e]; [|done].
    destruct (seen key seen_rows).
    + intros H%IH. by apply sublist_cons.
    + rewrite remove_duplicates_loop_app.
      destruct (remove_duplicates_loop columns (key :: seen_rows) [] rs)
        as [out'|] eqn:Hl; [|done].
      intros. simplify_eq. apply sublist_skip. by eapply IH.
Qed.

Lemma remove_duplicates_rows t :
  column_info (remove_duplicates t).2 = column_info t
  ∧ sublist (rows (remove_duplicates t).2) (rows t).
Proof.
  unfold remove_duplicates.
  destruct (remove_duplicates_loop (column_info t) [] [] (rows t)) eqn:Hl; simpl.
  - split; [done|]. by eapply remove_duplicates_loop_sublist.
  - done.
Qed.

Lemma py_del_item_Some {A} (l l' : list A) (i : Z) :
  py_del_item l i = Some l' →
  ∃ k : nat, k < length l ∧ l' = delete k l
    ∧ (Z.of_nat k = if (i <? 0)%Z then (i + Z.of_nat (length l))%Z else i).
Proof.
  unfold py_del_item.
  set (i' := if (i <? 0)%Z then (i + Z.of_nat (length l))%Z else i).
  destruct ((i' <? 0)%Z || (i' >=? Z.of_nat (length l))%Z) eqn:Hb; [done|].
  intros. simplify_eq. exists (Z.to_nat i'). split_and!; [lia | done | lia].
Qed.

Lemma py_del_item_nonneg {A} (l : list A) (i : N) :
  py_del_item l (Z.of_N i) =
    if decide (N.to_nat i < length l) then Some (delete (N.to_nat i) l)
    else None.
Proof.
  unfold py_del_item. cbv zeta.
  assert ((Z.of_N i <? 0)%Z = false) as Hneg by (apply Z.ltb_ge; lia).
  rewrite Hneg. simpl. rewrite Hneg, Z.geb_leb. simpl. case_decide.
  - rewrite (proj2 (Z.leb_gt _ _)) by lia.
    by replace (Z.to_nat (Z.of_N i)) with (N.to_nat i) by lia.
  - by rewrite (proj2 (Z.leb_le _ _)) by lia.
Qed.

Lemma delete_sublist {A} (l : list A) (k : nat) : sublist (delete k l) l.
Proof.
  revert k. induction l as [|x l IH]; intros [|k]; simpl; try done.
  - by apply sublist_cons.
  - by apply sublist_skip.
Qed.

Lemma add_row_ok t values :
  all_instances (column_info t) values →
  add_row t values
  = (Return tt,
     {| column_info := column_info t; rows := rows t ++ [new_row t values] |}).
Proof.
  intros Hall. unfold add_row.
  rewrite bool_decide_eq_false_2
    by (by rewrite (Forall2_length _ _ _ Hall); intros []).
  by rewrite validate_all_instances.
Qed.

Lemma update_row_ok t row_index values :
  (0 ≤ row_index < Z.of_nat (length (rows t)))%Z →
  all_instances (column_info t) values →
  update_row t row_index values
  = (Return tt,
     {| column_info := column_info t;
        rows := <[Z.to_nat row_index := new_row t values]> (rows t) |}).
Proof.
  intros Hi Hall. unfold update_row.
  replace ((row_index <? 0)%Z || (row_index >=? Z.of_nat (length (rows t)))%Z)
    with false by (symmetry; apply orb_false_iff; lia).
  rewrite bool_decide_eq_false_2
    by (by rewrite (Forall2_length _ _ _ Hall); intros []).
  by rewrite validate_all_instances.
Qed.

(** ** Booleans in integer columns *)

(** C1, as stated, fails: a table with the one column [("Age", int)] takes
    the row [[True]]: [add_row] returns and the row is appended, and
    [update_row] at index 0 returns and replaces the row that was there. *)
Lemma C1_bool_accepted_by_int_column :
  add_row (new_table [("Age", Cint)]) [VBool true]
  = (Return tt,
     {| column_info := [("Age", Cint)]; rows := [ {[ "Age" := VBool true ]} ] |})
  ∧ update_row
      {| column_info := [("Age", Cint)]; rows := [ {[ "Age" := VInt 25 ]} ] |}
      0 [VBool true]
    = (Return tt,
       {| column_info := [("Age", Cint)];
          rows := [ {[ "Age" := VBool true ]} ] |}).
Proof. split; reflexivity. Qed.

(** C1, amended: a boolean value satisfies an integer column.  For a table
    with an integer-typed column at position [i], values of the right number
    with a boolean at position [i] and, everywhere else, an instance of the
    column's class: [add_row] returns and appends the row that zips the column
    names with the values, and [update_row] at a valid index returns and
    replaces the row at that index with it. *)
Theorem C1_bool_satisfies_int_column (t : DynamicTable) (values : list value)
    (i : nat) (column_name : string) (b : bool) :
  column_info t !! i = Some (column_name, Cint) →
  values !! i = Some (VBool b) →
  length values = length (column_info t) →
  (∀ j column v, j ≠ i → column_info t !! j = Some column →
     values !! j = Some v → isinstance v column.2 = true) →
  add_row t values
  = (Return tt,
     {| column_info := column_info t;
        rows := rows t ++ [py_dict (py_zip (column_names t) values)] |})
  ∧ ∀ row_index, (0 ≤ row_index < Z.of_nat (length (rows t)))%Z →
      update_row t row_index values
      = (Return tt,
         {| column_info := column_info t;
            rows := <[Z.to_nat row_index :=
                        py_dict (py_zip (column_names t) values)]> (rows t) |}).
Proof.
  intros Hcol Hval Hlen Hothers.
  assert (all_instances (column_info t) values) as Hall.
  { apply Forall2_same_length_lookup_2; [done|]. intros j column v Hc Hv.
    destruct (decide (j = i)) as [->|Hne]; [|by eapply Hothers].
    by simplify_eq. }
  split.
  - by apply add_row_ok.
  - intros row_index Hi. by apply update_row_ok.
Qed.

(** A table with a string and an integer column and one row takes
    [("Bob", True)], appended or in place of the row. *)
Lemma C1_bool_satisfies_int_column_witness :
  let t := {| column_info := [("Name", Cstr); ("Age", Cint)];
              rows := [ {[ "Name" := VStr "Alice"; "Age" := VInt 25 ]} ] |} in
  add_row t [VStr "Bob"; VBool true]
  = (Return tt,
     {| column_info := [("Name", Cstr); ("Age", Cint)];
        rows := [ {[ "Name" := VStr "Alice"; "Age" := VInt 25 ]};
                  {[ "Name" := VStr "Bob"; "Age" := VBool true ]} ] |})
  ∧ update_row t 0 [VStr "Bob"; VBool true]
    = (Return tt,
       {| column_info := [("Name", Cstr); ("Age", Cint)];
          rows := [ {[ "Name" := VStr "Bob"; "Age" := VBool true ]} ] |}).
Proof.
  intros t.
  destruct (C1_bool_satisfies_int_column t [VStr "Bob"; VBool true] 1 "Age" true)
    as [Hadd Hupdate].
  - reflexivity.
  - reflexivity.
  - reflexivity.
  - intros [|[|j]] column v Hj Hc Hv; simplify_eq/=; done.
  - split; [exact Hadd | apply (Hupdate 0%Z); simpl; lia].
Defined.

(** ** Failures leave the table as it was *)

Lemma checked_Raise t values e :
  checked t values (Raise e) → documented_failure e.
Proof. by inversion 1. Qed.

(** C4: when [add_row], [update_row] or [add_column] raises, the table after
    the call (its schema and its rows) is the table before the call, and the
    failure is one of ArityMismatch, TypeMismatch, DuplicateColumn and
    IndexOutOfBounds. *)
Theorem C4_failure_leaves_table_unchanged (t : DynamicTable) (e : exn) :
  (∀ values,
     (add_row t values).1 = Raise e →
     (add_row t values).2 = t ∧ documented_failure e)
  ∧ (∀ row_index values,
       (update_row t row_index values).1 = Raise e →
       (update_row t row_index values).2 = t ∧ documented_failure e)
  ∧ (∀ column_name column_type,
       (add_column t column_name column_type).1 = Raise e →
       (add_column t column_name column_type).2 = t ∧ documented_failure e).
Proof.
  split_and!.
  - intros values. destruct (add_row_cases t values) as (o & Hch & ->).
    simpl. intros ->. split; [done | by eapply checked_Raise].
  - intros row_index values.
    destruct (update_row_cases t row_index values)
      as [[_ ->]|[_ (o & Hch & ->)]]; simpl.
    + intros. by simplify_eq.
    + intros ->. split; [done | by eapply checked_Raise].
  - intros column_name column_type. unfold add_column.
    case_bool_decide; simpl; [|done]. intros. by simplify_eq.
Qed.

(** The scenarios of the specification: a table with the column
    [("Name", str)] and the row [("X")] refuses the row [(42)], refuses an
    update at index 1 and refuses a second column "Name", and stays as it
    was each time. *)
Lemma C4_failure_leaves_table_unchanged_witness :
  let t := {| column_info := [("Name", Cstr)];
              rows := [ {[ "Name" := VStr "X" ]} ] |} in
  ((add_row t [VInt 42]).1 = Raise (TypeMismatch "Name" Cstr Cint)
   ∧ (add_row t [VInt 42]).2 = t)
  ∧ ((update_row t 1 [VStr "x"]).1 = Raise IndexOutOfBounds
     ∧ (update_row t 1 [VStr "x"]).2 = t)
  ∧ ((add_column t "Name" Cint).1 = Raise (DuplicateColumn "Name")
     ∧ (add_column t "Name" Cint).2 = t).
Proof.
  intros t. split_and!.
  - reflexivity.
  - apply (C4_failure_leaves_table_unchanged t (TypeMismatch "Name" Cstr Cint)).
    reflexivity.
  - reflexivity.
  - apply (C4_failure_leaves_table_unchanged t IndexOutOfBounds). reflexivity.
  - reflexivity.
  - apply (C4_failure_leaves_table_unchanged t (DuplicateColumn "Name")).
    reflexivity.
Defined.

(** ** The absent marker *)

Lemma all_instances_no_None columns values :
  Forall (λ column : string * pyclass, is_TypeTag column.2 = true) columns →
  all_instances columns values → VNone ∉ values.
Proof.
  intros Htags Hall. induction Hall as [|[name ty] v columns values Hi Hall IH].
  - apply not_elem_of_nil.
  - apply Forall_cons in Htags as [Hty Htags].
    intros [<-|Hin]%elem_of_cons; [|by apply IH].
    apply isinstance_None in Hi. simpl in *. by subst.
Qed.

Lemma list_elem_of_insert_inv {A} (l : list A) i x y :
  y ∈ <[i:=x]> l → y = x ∨ y ∈ l.
Proof.
  intros [j Hj]%list_elem_of_lookup.
  apply list_lookup_insert_Some in Hj as [(-> & -> & _)|[_ Hj]]; [by left|].
  right. by eapply list_elem_of_lookup_2.
Qed.

(** C10: in a table whose columns are all typed with one of the four type
    tags, [add_row] and [update_row] (given the right number of values and,
    for [update_row], a valid index) fail with TypeMismatch as soon as one
    value is [None], and leave the table as it was.  Consequently, after any
    operation, a [None] under a column of a row was either already in the
    table under that column before the operation, or the operation is
    [add_column] of that very column and the row is a row that existed
    before, extended with the new key. *)
Theorem C10_None_only_from_add_column (t : DynamicTable) :
  Forall (λ column, is_TypeTag column.2 = true) (column_info t) →
  (∀ values,
     length values = length (column_info t) → VNone ∈ values →
     ∃ column_name expected actual,
       add_row t values = (Raise (TypeMismatch column_name expected actual), t))
  ∧ (∀ row_index values,
       (0 ≤ row_index < Z.of_nat (length (rows t)))%Z →
       length values = length (column_info t) → VNone ∈ values →
       ∃ column_name expected actual,
         update_row t row_index values
         = (Raise (TypeMismatch column_name expected actual), t))
  ∧ (∀ op row' column,
       row' ∈ rows (run op t).2 → row' !! column = Some VNone →
       (∃ row, row ∈ rows t ∧ row !! column = Some VNone)
       ∨ (∃ column_type row,
            op = AddColumn column column_type ∧ row ∈ rows t
            ∧ row' = <[column := VNone]> row)).
Proof.
  intros Htags. split_and!.
  - intros values Hlen HNone.
    destruct (add_row_cases t values) as (o & Hch & ->).
    inversion Hch as [|j n c v| ? Hall]; subst; [done|by eauto|].
    by apply all_instances_no_None in Hall.
  - intros row_index values Hi Hlen HNone.
    destruct (update_row_cases t row_index values)
      as [[? _]|[_ (o & Hch & ->)]]; [done|].
    inversion Hch as [|j n c v| ? Hall]; subst; [done|by eauto|].
    by apply all_instances_no_None in Hall.
  - intros op row' column Hin HNone. destruct op as [c ty|c|values|i values|i|];
      simpl in Hin.
    + unfold add_column in Hin. case_bool_decide; simpl in Hin; [by eauto|].
      apply list_elem_of_fmap in Hin as (row & -> & Hrow).
      destruct (decide (c = column)) as [->|Hne]; [by eauto 10|].
      rewrite lookup_insert_ne in HNone by done. by eauto.
    + unfold delete_column in Hin.
      destruct (list_find _ _) as [[index ?]|]; [|by eauto].
      destruct (del_key_rows c (rows t)) as [o rows'] eqn:Hd. simpl in Hin.
      destruct (del_key_rows_elem _ _ _ _ _ Hd Hin) as (row & Hrow & [->| ->]);
        [by eauto|].
      left. exists row. split; [done|].
      by apply lookup_delete_Some in HNone as [_ ?].
    + destruct (add_row_cases t values) as (o & Hch & Heq).
      rewrite Heq in Hin. simpl in Hin.
      inversion Hch as [| |? Hall]; subst; [by eauto..|]. simpl in Hin.
      apply elem_of_app in Hin as [Hin| ->%list_elem_of_singleton]; [by eauto|].
      apply new_row_lookup in HNone.
      by apply all_instances_no_None in Hall.
    + destruct (update_row_cases t i values)
        as [[_ Heq]|[_ (o & Hch & Heq)]]; rewrite Heq in Hin; simpl in Hin;
        [by eauto|].
      inversion Hch as [| |? Hall]; subst; [by eauto..|]. simpl in Hin.
      apply list_elem_of_insert_inv in Hin as [->|Hin]; [|by eauto].
      apply new_row_lookup in HNone.
      by apply all_instances_no_None in Hall.
    + unfold del_rows_item in Hin.
      destruct (py_del_item (rows t) (Z.of_N i)) as [rows'|] eqn:Hd;
        simpl in Hin; [|by eauto].
      apply py_del_item_Some in Hd as (k & _ & -> & _).
      apply list_elem_of_delete_inv in Hin. by eauto.
    + destruct (remove_duplicates_rows t) as [_ Hsub].
      left. exists row'. split; [|done]. by eapply elem_of_sublist.
Qed.

(** A table with a string and an integer column refuses [("Bob", None)],
    appended or in place of its row; and the [None] that [add_column] puts
    under the new column "City" sits in the row that existed before. *)
Lemma C10_None_only_from_add_column_witness :
  let row : Row := {[ "Name" := VStr "Alice"; "Age" := VInt 25 ]} in
  let t := {| column_info := [("Name", Cstr); ("Age", Cint)]; rows := [row] |} in
  (∃ column_name expected actual,
     add_row t [VStr "Bob"; VNone]
     = (Raise (TypeMismatch column_name expected actual), t))
  ∧ (∃ column_name expected actual,
       update_row t 0 [VStr "Bob"; VNone]
       = (Raise (TypeMismatch column_name expected actual), t))
  ∧ ((∃ row0, row0 ∈ rows t ∧ row0 !! "City" = Some VNone)
     ∨ (∃ column_type row0,
          AddColumn "City" Cstr = AddColumn "City" column_type ∧ row0 ∈ rows t
          ∧ <["City" := VNone]> row = <["City" := VNone]> row0)).
Proof.
  intros row t.
  assert (Forall (λ column : string * pyclass, is_TypeTag column.2 = true)
            (column_info t)) as Htags by (by repeat constructor).
  destruct (C10_None_only_from_add_column t Htags) as (Hadd & Hupdate & Hop).
  split_and!.
  - apply Hadd; [reflexivity | by repeat constructor].
  - apply Hupdate; [simpl; lia | reflexivity | by repeat constructor].
  - apply (Hop (AddColumn "City" Cstr)); [by repeat constructor | reflexivity].
Defined.

(** ** The lockstep invariant *)

Lemma lockstep_lookup t row column_name :
  lockstep t → row ∈ rows t →
  is_Some (row !! column_name) ↔ column_name ∈ column_names t.
Proof.
  intros Hlock Hrow. rewrite <- elem_of_dom, (Hlock _ Hrow).
  apply elem_of_list_to_set.
Qed.

Lemma list_to_set_delete (l : list string) i x :
  NoDup l → l !! i = Some x →
  list_to_set (C := gset string) (delete i l) = list_to_set l ∖ {[x]}.
Proof.
  intros Hnd Hi. rewrite delete_take_drop.
  rewrite <- (take_drop_middle l i x Hi) in Hnd at 1.
  rewrite <- (take_drop_middle l i x Hi) at 3.
  apply NoDup_app in Hnd as (_ & Hnot & [Hx _]%NoDup_cons).
  assert (x ∉ take i l) by (intros Hin; apply (Hnot _ Hin); by left).
  rewrite !list_to_set_app_L, list_to_set_cons.
  apply set_eq. intros y.
  rewrite elem_of_difference, !elem_of_union, !elem_of_list_to_set,
    elem_of_singleton.
  split; [|tauto]. intros [?|?]; (split; [tauto|]); by intros ->.
Qed.

(** What [delete_column] does to a table in which every row has the key. *)
Lemma delete_column_found t column_name index :
  list_find (λ name, name = column_name) (column_names t)
  = Some (index, column_name) →
  Forall (λ row : Row, is_Some (row !! column_name)) (rows t) →
  delete_column t column_name
  = (Return tt,
     {| column_info := delete index (column_info t);
        rows := delete column_name <$> rows t |}).
Proof.
  intros Hfind Hall. unfold delete_column.
  by rewrite Hfind, del_key_rows_all.
Qed.

Lemma add_column_well_formed t column_name column_type :
  well_formed t → well_formed (add_column t column_name column_type).2.
Proof.
  intros [Hnd Hlock]. unfold add_column.
  case_bool_decide as Hin; simpl; [done|]. split.
  - unfold column_names in *. simpl. rewrite fmap_app. simpl.
    apply NoDup_app. split_and!; [done| |apply NoDup_singleton].
    intros x Hx ->%list_elem_of_singleton. done.
  - intros row' (row & -> & Hrow)%list_elem_of_fmap.
    unfold column_names in *. simpl. rewrite fmap_app, list_to_set_app_L.
    rewrite dom_insert_L, (Hlock _ Hrow), (comm_L (∪)). simpl.
    by rewrite (right_id_L ∅ (∪)).
Qed.

Lemma delete_column_well_formed t column_name :
  well_formed t → well_formed (delete_column t column_name).2.
Proof.
  intros [Hnd Hlock].
  destruct (list_find (λ name, name = column_name) (column_names t))
    as [[index x]|] eqn:Hfind.
  - pose proof Hfind as (Hi & -> & _)%list_find_Some.
    rewrite (delete_column_found _ _ index); [|done|].
    + simpl. split.
      * unfold column_names in *. simpl. rewrite list_fmap_delete.
        eapply sublist_NoDup; [done | apply delete_sublist].
      * intros row' (row & -> & Hrow)%list_elem_of_fmap.
        unfold column_names in *. simpl.
        rewrite list_fmap_delete, (list_to_set_delete _ _ column_name) by done.
        by rewrite dom_delete_L, (Hlock _ Hrow).
    + apply Forall_forall. intros row Hrow.
      apply (lockstep_lookup t); [done..|]. by eapply list_elem_of_lookup_2.
  - unfold delete_column. by rewrite Hfind.
Qed.

Lemma new_row_well_formed t values rows' :
  length values = length (column_info t) →
  well_formed t →
  (∀ row, row ∈ rows' → row = new_row t values ∨ row ∈ rows t) →
  well_formed {| column_info := column_info t; rows := rows' |}.
Proof.
  intros Hlen [Hnd Hlock] Hrows. split; [done|].
  intros row Hin. simpl in Hin. change (dom row = list_to_set (column_names t)).
  destruct (Hrows _ Hin) as [->|Hrow]; [by apply new_row_dom | by apply Hlock].
Qed.

Lemma add_row_well_formed t values :
  well_formed t → well_formed (add_row t values).2.
Proof.
  intros Hwf. destruct (add_row_cases t values) as (o & Hch & ->).
  inversion Hch as [| |Hlen Hall]; subst; simpl; [done..|].
  apply (new_row_well_formed t values); [done..|].
  intros row [?| ->%list_elem_of_singleton]%elem_of_app; by eauto.
Qed.

Lemma update_row_well_formed t row_index values :
  well_formed t → well_formed (update_row t row_index values).2.
Proof.
  intros Hwf.
  destruct (update_row_cases t row_index values)
    as [[_ ->]|[_ (o & Hch & ->)]]; [done|].
  inversion Hch as [| |Hlen Hall]; subst; simpl; [done..|].
  apply (new_row_well_formed t values); [done..|].
  intros row. apply list_elem_of_insert_inv.
Qed.

Lemma sublist_rows_well_formed t rows' :
  well_formed t → sublist rows' (rows t) →
  well_formed {| column_info := column_info t; rows := rows' |}.
Proof.
  intros [Hnd Hlock] Hsub. split; [done|].
  intros row Hrow. simpl in Hrow.
  change (dom row = list_to_set (column_names t)).
  apply Hlock. by eapply elem_of_sublist.
Qed.

Lemma del_rows_item_well_formed t row_index :
  well_formed t → well_formed (del_rows_item t row_index).2.
Proof.
  intros Hwf. unfold del_rows_item.
  destruct (py_del_item (rows t) row_index) as [rows'|] eqn:Hd; [|done].
  apply py_del_item_Some in Hd as (k & _ & -> & _).
  apply sublist_rows_well_formed; [done | apply delete_sublist].
Qed.

Lemma remove_duplicates_well_formed t :
  well_formed t → well_formed (remove_duplicates t).2.
Proof.
  intros Hwf. destruct (remove_duplicates_rows t) as [Hcols Hsub].
  destruct (remove_duplicates t).2 as [columns' rows']. simpl in *. subst.
  by apply sublist_rows_well_formed.
Qed.

Create HintDb table_inv.

#[local] Hint Resolve add_column_well_formed delete_column_well_formed
  add_row_well_formed update_row_well_formed del_rows_item_well_formed
  remove_duplicates_well_formed : table_inv.

Lemma run_well_formed op t : well_formed t → well_formed (run op t).2.
Proof. destruct op; simpl; auto with table_inv. Qed.

Lemma reachable_well_formed t0 t :
  well_formed t0 → reachable t0 t → well_formed t.
Proof. induction 2; [done | by apply run_well_formed]. Qed.

(** C8: from a well-formed table (unique column names, rows in lockstep),
    every table reached by a sequence of [add_column], [delete_column],
    [add_row], [update_row], [delete_row] and [remove_duplicates], whether
    they return or raise, has every row's key set equal to the set of its
    column names; so the invariant holds before and after each further
    operation. *)
Theorem C8_lockstep_invariant (t0 t : DynamicTable) :
  well_formed t0 → reachable t0 t →
  lockstep t ∧ ∀ op, lockstep (run op t).2.
Proof.
  intros Hwf Hreach. apply reachable_well_formed in Hreach; [|done].
  split; [apply Hreach|]. intros op. by apply run_well_formed.
Qed.

Lemma reachable_run_all ops t0 t :
  reachable t0 t → reachable t0 (run_all ops t).
Proof.
  revert t. induction ops as [|op ops IH]; intros t Ht; simpl; [done|].
  apply IH. by constructor.
Qed.

Lemma new_table_well_formed columns :
  NoDup columns.*1 → well_formed (new_table columns).
Proof. intros Hnd. split; [done|]. by intros row Hrow%elem_of_nil. Qed.

Lemma C8_lockstep_invariant_witness :
  lockstep (run_all session (new_table table_info))
  ∧ ∀ op, lockstep (run op (run_all session (new_table table_info))).2.
Proof.
  apply (C8_lockstep_invariant (new_table table_info)).
  - apply new_table_well_formed. apply (bool_decide_unpack _). by vm_compute.
  - apply reachable_run_all. constructor.
Defined.

(** ** Adding a column and deleting it again *)

Lemma list_find_snoc (l : list string) x :
  x ∉ l → list_find (λ y, y = x) (l ++ [x]) = Some (length l, x).
Proof.
  intros Hx. apply list_find_Some. split_and!; [|done|].
  - by apply list_lookup_middle.
  - intros j y Hj Hlt ->. apply Hx.
    rewrite lookup_app_l in Hj by done. by eapply list_elem_of_lookup_2.
Qed.

(** C7: in a table whose rows are in lockstep with the schema, for a column
    name [c] that the schema does not have, [add_column(c, T)] returns,
    [delete_column(c)] on the table it leaves returns, and the table after
    both is the table before: the same schema, the same rows in the same
    order, each with the key set (and the values) it had. *)
Theorem C7_add_then_delete_column (t : DynamicTable) (c : string) (T : pyclass) :
  lockstep t → c ∉ column_names t →
  let t1 := (add_column t c T).2 in
  let t2 := (delete_column t1 c).2 in
  (add_column t c T).1 = Return tt
  ∧ (delete_column t1 c).1 = Return tt
  ∧ column_info t2 = column_info t
  ∧ dom <$> rows t2 = dom <$> rows t
  ∧ t2 = t.
Proof.
  intros Hlock Hc t1 t2.
  assert (add_column t c T
          = (Return tt,
             {| column_info := column_info t ++ [(c, T)];
                rows := (λ row : Row, <[c := VNone]> row) <$> rows t |}))
    as Hadd.
  { unfold add_column. by rewrite bool_decide_eq_false_2. }
  assert (delete_column t1 c = (Return tt, t)) as Hdel.
  { subst t1. rewrite Hadd. simpl.
    rewrite (delete_column_found _ _ (length (column_info t))).
    - simpl. f_equal. destruct t as [columns rs]. simpl in *. f_equal.
      + by rewrite delete_middle, app_nil_r.
      + rewrite <- list_fmap_compose. rewrite <- (list_fmap_id rs) at 2.
        apply list_fmap_ext. intros i row Hrow%list_elem_of_lookup_2. simpl.
        rewrite delete_insert_eq. apply delete_id.
        apply eq_None_not_Some. by rewrite (lockstep_lookup _ _ _ Hlock Hrow).
    - unfold column_names. simpl. rewrite fmap_app. simpl.
      rewrite <- (length_fmap fst). by apply list_find_snoc.
    - simpl. apply Forall_forall. intros row' (row & -> & _)%list_elem_of_fmap.
      by rewrite lookup_insert_eq. }
  subst t2. rewrite Hdel, Hadd. done.
Qed.

Lemma table_well_formed : well_formed table.
Proof.
  unfold table, demo_rows. cbn [fold_left]. repeat apply add_row_well_formed.
  apply new_table_well_formed. apply (bool_decide_unpack _). by vm_compute.
Qed.

(** The table of the module gets a column "Email" and loses it again. *)
Lemma C7_add_then_delete_column_witness :
  let t1 := (add_column table "Email" Cstr).2 in
  let t2 := (delete_column t1 "Email").2 in
  (add_column table "Email" Cstr).1 = Return tt
  ∧ (delete_column t1 "Email").1 = Return tt
  ∧ column_info t2 = column_info table
  ∧ dom <$> rows t2 = dom <$> rows table
  ∧ t2 = table.
Proof.
  apply (C7_add_then_delete_column table "Email" Cstr).
  - apply table_well_formed.
  - apply (bool_decide_unpack _). by vm_compute.
Defined.

(** Without lockstep: a row that has a key the schema does not have loses it
    when a column of that name is added and deleted. *)
Example add_then_delete_column_without_lockstep :
  let t := {| column_info := []; rows := [ {[ "A" := VInt 1 ]} ] |} in
  (delete_column (add_column t "A" Cint).2 "A").2
  = {| column_info := []; rows := [ ∅ ] |}.
Proof. reflexivity. Qed.

(** ** Deleting a row *)

(** C9: for a table the database holds under [table_name], the handler
    [delete_row] answers an index at or past the number of rows with the
    IndexOutOfBounds error and leaves the database, hence the rows, as they
    were.  At an index [i] below the number of rows it answers 200 and puts
    back the table with the same schema and the rows without the one at
    position [i]: one row fewer, the rows at positions below [i] where they
    were, and every row that was at a position [j] above [i] now at [j - 1].
    (The route hands the handler a natural number.) *)
Theorem C9_delete_row (database : Database) (table_name : string)
    (dynamic_table : DynamicTable) (row_index : N) :
  tables database !! table_name = Some dynamic_table →
  let old := rows dynamic_table in
  let i := N.to_nat row_index in
  ((length old ≤ i)%nat →
   delete_row database table_name row_index
   = (Error 404 IndexOutOfBounds, database))
  ∧ (i < length old →
     ∃ rows',
       delete_row database table_name row_index
       = (Message 200,
          {| tables :=
               <[table_name := {| column_info := column_info dynamic_table;
                                  rows := rows' |}]> (tables database) |})
       ∧ rows' = take i old ++ drop (S i) old
       ∧ S (length rows') = length old
       ∧ (∀ j, j < i → rows' !! j = old !! j)
       ∧ (∀ j, i < j → rows' !! (j - 1) = old !! j)).
Proof.
  intros Hlookup old i. unfold delete_row, del_rows_item.
  rewrite Hlookup, py_del_item_nonneg. fold old i. split; intros Hi.
  - by rewrite decide_False by lia.
  - rewrite decide_True by done. exists (delete i old). split_and!.
    + done.
    + apply delete_take_drop.
    + rewrite length_delete by by apply lookup_lt_is_Some_2. lia.
    + intros j Hj. by apply list_lookup_delete_lt.
    + intros j Hj. rewrite list_lookup_delete_ge by lia. f_equal. lia.
Qed.

(** "Table1" has four rows: index 7 is refused, index 1 removes Bob's row. *)
Lemma C9_delete_row_witness :
  delete_row database "Table1" 7 = (Error 404 IndexOutOfBounds, database)
  ∧ ∃ rows',
      delete_row database "Table1" 1
      = (Message 200,
         {| tables :=
              <["Table1" := {| column_info := column_info table;
                               rows := rows' |}]> (tables database) |})
      ∧ rows' = take 1 (rows table) ++ drop 2 (rows table)
      ∧ S (length rows') = length (rows table)
      ∧ (∀ j, j < 1 → rows' !! j = rows table !! j)
      ∧ (∀ j, 1 < j → rows' !! (j - 1) = rows table !! j).
Proof.
  split.
  - apply (C9_delete_row database "Table1" table 7); [reflexivity|].
    vm_compute. lia.
  - apply (C9_delete_row database "Table1" table 1); [reflexivity|].
    vm_compute. lia.
Defined.

(** ** Removing duplicates *)

Lemma lockstep_covers t row :
  lockstep t → row ∈ rows t → covers (column_info t) row.
Proof.
  intros Hlock Hrow. apply Forall_forall. intros [c ty] Hc. simpl.
  apply (lockstep_lookup t); [done..|].
  apply list_elem_of_fmap. by exists (c, ty).
Qed.

Section RemoveDuplicates.

Variable columns : list (string * pyclass).

Lemma key_values_covers row :
  covers columns row → ∃ key, key_values columns row = Return key.
Proof.
  induction 1 as [|[c ty] cs [v Hv] _ [key IH]]; simpl; [by eauto|].
  simpl in Hv. rewrite Hv, IH. by eauto.
Qed.

(** The tuples of two rows are equal exactly when the rows are duplicates. *)
Lemma key_values_duplicate r1 r2 k1 k2 :
  key_values columns r1 = Return k1 → key_values columns r2 = Return k2 →
  tuple_eqb k1 k2 = duplicate_rows columns r1 r2.
Proof.
  revert k1 k2. induction columns as [|[c ty] cs IH]; intros k1 k2; simpl.
  - intros. by simplify_eq.
  - destruct (r1 !! c) as [v1|]; [|done]. destruct (r2 !! c) as [v2|]; [|done].
    destruct (key_values cs r1) as [k1'|]; [|done].
    destruct (key_values cs r2) as [k2'|]; [|done].
    intros. simplify_eq. simpl. by rewrite (IH k1' k2').
Qed.

Lemma first_occurrences_app earlier l1 l2 :
  first_occurrences columns earlier (l1 ++ l2)
  = first_occurrences columns earlier l1
    ++ first_occurrences columns (earlier ++ l1) l2.
Proof.
  revert earlier. induction l1 as [|row l1 IH]; intros earlier; simpl.
  - by rewrite app_nil_r.
  - rewrite IH, <- app_assoc. simpl. by destruct (existsb _ earlier).
Qed.

(** The row that comes after the rows [l1] is kept exactly when none of them
    is a duplicate of it. *)
Lemma first_occurrences_position l1 row l2 :
  first_occurrences columns [] (l1 ++ row :: l2)
  = first_occurrences columns [] l1
    ++ (if existsb (λ row0, duplicate_rows columns row0 row) l1 then []
        else [row])
    ++ first_occurrences columns (l1 ++ [row]) l2.
Proof.
  rewrite first_occurrences_app. simpl. by destruct (existsb _ l1).
Qed.

(** The set of the code holds the tuples of the rows kept so far, the
    specification looks at all the rows before: the same test, as equality
    of tuples is symmetric and transitive. *)
Lemma remove_duplicates_loop_first_occurrences seen_rows earlier rs :
  Forall (covers columns) rs →
  (∀ row key, key_values columns row = Return key →
     seen key seen_rows
     = existsb (λ row0, duplicate_rows columns row0 row) earlier) →
  remove_duplicates_loop columns seen_rows [] rs
  = Return (first_occurrences columns earlier rs).
Proof.
  intros Hrs. revert seen_rows earlier.
  induction Hrs as [|r rs Hr Hrs IH]; intros seen_rows earlier Hseen;
    simpl; [done|].
  destruct (key_values_covers _ Hr) as [key Hkey]. rewrite Hkey.
  rewrite <- (Hseen r key Hkey).
  destruct (seen key seen_rows) eqn:Hs.
  - apply IH. intros row key' Hkey'.
    rewrite existsb_app, <- (Hseen row key' Hkey'). simpl.
    rewrite orb_false_r, <- (key_values_duplicate _ _ _ _ Hkey Hkey').
    destruct (tuple_eqb key key') eqn:Heq; [|by rewrite orb_false_r].
    rewrite orb_true_r. unfold seen in *.
    apply existsb_exists in Hs as (k0 & Hk0 & Hkk0).
    apply existsb_exists. exists k0. split; [done|].
    rewrite tuple_eqb_sym in Heq. by eapply tuple_eqb_trans.
  - rewrite remove_duplicates_loop_app.
    rewrite (IH (key :: seen_rows) (earlier ++ [r])); [done|].
    intros row key' Hkey'.
    rewrite existsb_app, <- (Hseen row key' Hkey'). simpl.
    rewrite orb_false_r, <- (key_values_duplicate _ _ _ _ Hkey Hkey').
    by rewrite (tuple_eqb_sym key' key), orb_comm.
Qed.

(** Running the loop again on what it kept keeps all of it. *)
Lemma remove_duplicates_loop_idempotent seen_rows rs out :
  remove_duplicates_loop columns seen_rows [] rs = Return out →
  remove_duplicates_loop columns seen_rows [] out = Return out.
Proof.
  revert seen_rows out.
  induction rs as [|r rs IH]; intros seen_rows out; simpl.
  - intros. by simplify_eq.
  - destruct (key_values columns r) as [key|] eqn:Hkey; [|done].
    destruct (seen key seen_rows) eqn:Hs; [by apply IH|].
    rewrite remove_duplicates_loop_app.
    destruct (remove_duplicates_loop columns (key :: seen_rows) [] rs)
      as [out'|] eqn:Hl; [|done].
    intros. simplify_eq. simpl. rewrite Hkey, Hs.
    by rewrite remove_duplicates_loop_app, (IH _ _ Hl).
Qed.

End RemoveDuplicates.

Lemma remove_duplicates_lockstep t :
  lockstep t →
  remove_duplicates_loop (column_info t) [] [] (rows t)
  = Return (first_occurrences (column_info t) [] (rows t)).
Proof.
  intros Hlock. apply remove_duplicates_loop_first_occurrences; [|done].
  apply Forall_forall. intros row Hrow. by apply lockstep_covers.
Qed.

(** C5: on a table whose rows are in lockstep with the schema,
    [remove_duplicates] returns, keeps the schema, and leaves exactly the
    first occurrence of each distinct row, in the original order: the rows
    [kept] are the first occurrences, a subsequence of the rows, and a row
    at any position is among them exactly when no row before it is a
    duplicate of it.  (Rows are duplicates when under every column their
    values are equal as Python compares the items of two tuples: by [==], so
    that [True], [1] and [1.0] are equal, or as the very same object, so
    that two rows that hold one NaN object are duplicates.)  In
    particular the table with the schema [("Name", str), ("Age", int)] and
    the rows ("Alice", 25), ("Bob", 30), ("Alice", 25) is left with
    ("Alice", 25), ("Bob", 30), in that order. *)
Theorem C5_remove_duplicates_keeps_first_occurrences (t : DynamicTable) :
  lockstep t →
  (∃ kept,
     remove_duplicates t
     = (Return tt, {| column_info := column_info t; rows := kept |})
     ∧ kept = first_occurrences (column_info t) [] (rows t)
     ∧ sublist kept (rows t)
     ∧ ∀ l1 row l2,
         rows t = l1 ++ row :: l2 →
         kept
         = first_occurrences (column_info t) [] l1
           ++ (if existsb (λ row0, duplicate_rows (column_info t) row0 row) l1
               then [] else [row])
           ++ first_occurrences (column_info t) (l1 ++ [row]) l2)
  ∧ remove_duplicates
      (run_all [ AddRow [VStr "Alice"; VInt 25];
                 AddRow [VStr "Bob"; VInt 30];
                 AddRow [VStr "Alice"; VInt 25] ]
         (new_table [("Name", Cstr); ("Age", Cint)]))
    = (Return tt,
       {| column_info := [("Name", Cstr); ("Age", Cint)];
          rows := [ {[ "Name" := VStr "Alice"; "Age" := VInt 25 ]};
                    {[ "Name" := VStr "Bob"; "Age" := VInt 30 ]} ] |}).
Proof.
  intros Hlock. split; [|reflexivity].
  pose proof (remove_duplicates_lockstep t Hlock) as Hloop.
  exists (first_occurrences (column_info t) [] (rows t)). split_and!.
  - unfold remove_duplicates. by rewrite Hloop.
  - done.
  - by eapply remove_duplicates_loop_sublist.
  - intros l1 row l2 ->. apply first_occurrences_position.
Qed.

(** The table of the module loses its second "Alice" row. *)
Lemma C5_remove_duplicates_keeps_first_occurrences_witness :
  remove_duplicates table
  = (Return tt,
     {| column_info := table_info;
        rows :=
          [ {[ "Name" := VStr "Alice"; "Age" := VInt 25;
               "City" := VStr "New York"; "IsStudent" := VBool false ]};
            {[ "Name" := VStr "Bob"; "Age" := VInt 30;
               "City" := VStr "San Francisco"; "IsStudent" := VBool true ]};
            {[ "Name" := VStr "Charlie"; "Age" := VInt 22;
               "City" := VStr "Los Angeles"; "IsStudent" := VBool true ]} ] |})
  ∧ remove_duplicates
      (run_all [ AddRow [VStr "Alice"; VInt 25];
                 AddRow [VStr "Bob"; VInt 30];
                 AddRow [VStr "Alice"; VInt 25] ]
         (new_table [("Name", Cstr); ("Age", Cint)]))
    = (Return tt,
       {| column_info := [("Name", Cstr); ("Age", Cint)];
          rows := [ {[ "Name" := VStr "Alice"; "Age" := VInt 25 ]};
                    {[ "Name" := VStr "Bob"; "Age" := VInt 30 ]} ] |}).
Proof.
  destruct (C5_remove_duplicates_keeps_first_occurrences table)
    as [(kept & Hkept & -> & _) Hscenario].
  - apply table_well_formed.
  - split; [exact Hkept | exact Hscenario].
Defined.

(** In an integer column that holds a boolean, [True] is a duplicate of [1];
    a NaN object is a duplicate of no other object, another NaN included. *)
Example remove_duplicates_numbers :
  remove_duplicates
    {| column_info := [("A", Cint); ("B", Cfloat)];
       rows := [ {[ "A" := VInt 1; "B" := VFloat PrimFloat.nan 0 ]};
                 {[ "A" := VBool true; "B" := VFloat PrimFloat.one 1 ]};
                 {[ "A" := VInt 1; "B" := VFloat PrimFloat.one 2 ]};
                 {[ "A" := VInt 1; "B" := VFloat PrimFloat.nan 3 ]} ] |}
  = (Return tt,
     {| column_info := [("A", Cint); ("B", Cfloat)];
        rows := [ {[ "A" := VInt 1; "B" := VFloat PrimFloat.nan 0 ]};
                  {[ "A" := VBool true; "B" := VFloat PrimFloat.one 1 ]};
                  {[ "A" := VInt 1; "B" := VFloat PrimFloat.nan 3 ]} ] |}).
Proof. reflexivity. Qed.

(** Rows that hold the same NaN object are duplicates, as the rows are whose
    NaN came in the body of a request: of the rows (1, NaN) and
    (True, NaN) with the NaN of [json] the second is dropped. *)
Example remove_duplicates_same_NaN :
  remove_duplicates
    (run_all [ AddRow [VInt 1; json_NaN]; AddRow [VBool true; json_NaN] ]
       (new_table [("A", Cint); ("B", Cfloat)]))
  = (Return tt,
     {| column_info := [("A", Cint); ("B", Cfloat)];
        rows := [ {[ "A" := VInt 1; "B" := json_NaN ]} ] |}).
Proof. reflexivity. Qed.

(** Without lockstep: a row that lacks a key of the schema stops
    [remove_duplicates] with a [KeyError]. *)
Example remove_duplicates_KeyError :
  remove_duplicates {| column_info := [("A", Cint)]; rows := [ ∅ ] |}
  = (Raise (KeyError "A"), {| column_info := [("A", Cint)]; rows := [ ∅ ] |}).
Proof. reflexivity. Qed.

(** C6: [remove_duplicates] is idempotent.  A second call right after the
    first ends as the first did and leaves the table the first left, so the
    rows after two calls are the rows after one; and on a table whose rows
    are in lockstep with the schema both calls return. *)
Theorem C6_remove_duplicates_idempotent (t : DynamicTable) :
  remove_duplicates (remove_duplicates t).2 = remove_duplicates t
  ∧ rows (remove_duplicates (remove_duplicates t).2).2
    = rows (remove_duplicates t).2
  ∧ (lockstep t →
     (remove_duplicates t).1 = Return tt
     ∧ (remove_duplicates (remove_duplicates t).2).1 = Return tt).
Proof.
  assert (remove_duplicates (remove_duplicates t).2 = remove_duplicates t)
    as Hidem.
  { unfold remove_duplicates at 2 3.
    destruct (remove_duplicates_loop (column_info t) [] [] (rows t))
      as [out|e] eqn:Hloop; simpl.
    - unfold remove_duplicates. simpl.
      by rewrite (remove_duplicates_loop_idempotent _ _ _ _ Hloop).
    - unfold remove_duplicates. by rewrite Hloop. }
  split_and!; [done | by rewrite Hidem |].
  intros Hlock. rewrite Hidem. unfold remove_duplicates.
  by rewrite (remove_duplicates_lockstep t Hlock).
Qed.

(** The table of the module: the second call changes nothing. *)
Lemma C6_remove_duplicates_idempotent_witness :
  remove_duplicates (remove_duplicates table).2 = remove_duplicates table
  ∧ rows (remove_duplicates (remove_duplicates table).2).2
    = rows (remove_duplicates table).2
  ∧ (remove_duplicates table).1 = Return tt
  ∧ (remove_duplicates (remove_duplicates table).2).1 = Return tt.
Proof.
  destruct (C6_remove_duplicates_idempotent table) as (Hidem & Hrows & Hret).
  split_and!; [exact Hidem | exact Hrows | apply Hret, table_well_formed..].
Defined.

(** ** Creating a table *)

(** C2, on the code: [add_table] does not look at the column names.  With
    the name "A" twice in the schema it returns and the database holds an
    empty table with both columns, whereas [add_column] refuses a second "A"
    on a table that has one.  In the table so created a row gets the single
    key "A", and after one [delete_column("A")] the schema still has a column
    "A" while the row has no key left. *)
Lemma C2_add_table_accepts_repeated_name :
  let columns := [("A", Cstr); ("A", Cint)] in
  let t := new_table columns in
  add_table {| tables := ∅ |} "T" columns
  = (Return tt, {| tables := {[ "T" := t ]} |})
  ∧ add_column (new_table [("A", Cstr)]) "A" Cint
    = (Raise (DuplicateColumn "A"), new_table [("A", Cstr)])
  ∧ add_row t [VStr "x"; VInt 1]
    = (Return tt, {| column_info := columns; rows := [ {[ "A" := VInt 1 ]} ] |})
  ∧ delete_column (add_row t [VStr "x"; VInt 1]).2 "A"
    = (Return tt, {| column_info := [("A", Cint)]; rows := [ ∅ ] |}).
Proof. split_and!; reflexivity. Qed.

(** ** Displaying a table *)

(** C3, as stated, fails.  The table below has one row, with [None] under
    the column added after the row; [display_table] prints three lines, the
    second a rule under the header, and the [None] is printed as the text
    "None". *)
Lemma C3_display_table_rule_and_None :
  let t := (add_column (add_row (new_table [("Name", Cstr)]) [VStr "Alice"]).2
              "Email" Cstr).2 in
  rows t = [ {[ "Name" := VStr "Alice"; "Email" := VNone ]} ]
  ∧ (∀ float_str,
       display_table float_str t = ["Name|Email"; "----------"; "Alice|None"])
  ∧ (∀ float_str, display_table float_str t ≠ ["Name|Email"; "Alice|"]).
Proof. split_and!; [reflexivity | reflexivity | done]. Qed.

(** C3, amended: [display_table] prints the header, the column names joined
    by "|"; then a rule of "-" as long as the header; then exactly one line
    per row, in row order.  The line of a row is its cells joined by "|", one
    cell per column in schema order, and the cell of a value other than
    [None] is the text of that value. *)
Theorem C3_display_table_lines (float_str : PrimFloat.float → string)
    (t : DynamicTable) :
  ∃ header rule lines,
    display_table float_str t = header :: rule :: lines
    ∧ header = String.concat "|" (column_names t)
    ∧ rule = str_repeat "-" (String.length header)
    ∧ length lines = length (rows t)
    ∧ ∀ i row, rows t !! i = Some row →
        ∃ cells,
          lines !! i = Some (String.concat "|" cells)
          ∧ length cells = length (column_info t)
          ∧ ∀ j column v,
              column_info t !! j = Some column →
              row !! column.1 = Some v → v ≠ VNone →
              cells !! j = Some (py_str float_str v).
Proof.
  eexists _, _, _. split_and!; [reflexivity | done | done | |].
  - by rewrite length_fmap.
  - intros i row Hrow. exists (row_values float_str (column_info t) row).
    split_and!.
    + by rewrite list_lookup_fmap, Hrow.
    + unfold row_values. by rewrite length_fmap.
    + intros j column v Hj Hv _. unfold row_values.
      by rewrite list_lookup_fmap, Hj; simpl; rewrite Hv.
Qed.

(** * Further properties of the code *)

(** ** delete_column *)

Lemma del_key_rows_outcome column_name rs :
  (del_key_rows column_name rs).1 = Return tt
  ∨ (del_key_rows column_name rs).1 = Raise (KeyError column_name).
Proof.
  induction rs as [|r rs IH]; simpl; [by left|].
  destruct (r !! column_name); [|by right].
  by destruct (del_key_rows column_name rs).
Qed.

Lemma del_key_rows_stops column_name l1 row l2 :
  Forall (λ r : Row, is_Some (r !! column_name)) l1 →
  row !! column_name = None →
  del_key_rows column_name (l1 ++ row :: l2)
  = (Raise (KeyError column_name), (delete column_name <$> l1) ++ row :: l2).
Proof.
  intros Hl1 Hrow. induction Hl1 as [|r l1 [v Hv] _ IH]; simpl.
  - by rewrite Hrow.
  - by rewrite Hv, IH.
Qed.

Lemma list_find_elem (l : list string) x :
  x ∈ l → ∃ index, list_find (λ y, y = x) l = Some (index, x).
Proof.
  intros Hx.
  destruct (list_find (λ y, y = x) l) as [[index y]|] eqn:Hfind.
  - pose proof Hfind as (_ & -> & _)%list_find_Some. by exists index.
  - apply list_find_None in Hfind. rewrite Forall_forall in Hfind.
    by destruct (Hfind x Hx).
Qed.

Lemma delete_column_not_found t column_name :
  column_name ∉ column_names t →
  delete_column t column_name = (Raise (UnknownColumn column_name), t).
Proof.
  intros Hin. unfold delete_column.
  destruct (list_find (λ name, name = column_name) (column_names t))
    as [[index x]|] eqn:Hfind; [|done].
  apply list_find_Some in Hfind as (Hi%list_elem_of_lookup_2 & -> & _). done.
Qed.

(** X1: [delete_column] raises [UnknownColumn] exactly for a name the schema
    does not have, and then the table is as it was. *)
Theorem delete_column_unknown (t : DynamicTable) (column_name : string) :
  ((delete_column t column_name).1 = Raise (UnknownColumn column_name)
   ↔ column_name ∉ column_names t)
  ∧ ((delete_column t column_name).1 = Raise (UnknownColumn column_name) →
     (delete_column t column_name).2 = t).
Proof.
  unfold delete_column.
  destruct (list_find (λ name, name = column_name) (column_names t))
    as [[index x]|] eqn:Hfind.
  - pose proof Hfind as (Hi%list_elem_of_lookup_2 & -> & _)%list_find_Some.
    pose proof (del_key_rows_outcome column_name (rows t)) as Ho.
    destruct (del_key_rows column_name (rows t)) as [o rows']. simpl in *.
    assert (o ≠ Raise (UnknownColumn column_name)) by (by destruct Ho as [->| ->]).
    split; [split|]; by intros.
  - apply list_find_None in Hfind. rewrite Forall_forall in Hfind. simpl.
    split; [split|]; [|done..]. intros _ Hin. by apply (Hfind _ Hin).
Qed.

(** X2: on a table whose rows are in lockstep with the schema, [delete_column]
    of a name in the schema returns: the schema loses the first column of
    that name and every row loses the key, the other columns, cells and rows
    staying as they were and where they were. *)
Theorem delete_column_lockstep (t : DynamicTable) (column_name : string) :
  lockstep t → column_name ∈ column_names t →
  ∃ index,
    column_names t !! index = Some column_name
    ∧ (∀ j, j < index → column_names t !! j ≠ Some column_name)
    ∧ delete_column t column_name
      = (Return tt,
         {| column_info := delete index (column_info t);
            rows := delete column_name <$> rows t |}).
Proof.
  intros Hlock Hin. destruct (list_find_elem _ _ Hin) as [index Hfind].
  exists index. pose proof Hfind as (Hi & _ & Hfirst)%list_find_Some.
  split_and!; [done| |].
  - intros j Hj Hname. by apply (Hfirst j column_name).
  - apply delete_column_found; [done|].
    apply Forall_forall. intros row Hrow. by apply (lockstep_lookup t).
Qed.

Lemma delete_column_lockstep_witness :
  ∃ index,
    column_names table !! index = Some "City"
    ∧ (∀ j, j < index → column_names table !! j ≠ Some "City")
    ∧ delete_column table "City"
      = (Return tt,
         {| column_info := delete index (column_info table);
            rows := delete "City" <$> rows table |}).
Proof.
  apply (delete_column_lockstep table "City").
  - apply table_well_formed.
  - apply (bool_decide_unpack _). by vm_compute.
Defined.

(** X3: [delete_column] is not atomic: when a row lacks the key, the [KeyError]
    comes after the column has left the schema and the rows before that row
    have lost the key; that row and the rows after it are as they were. *)
Theorem delete_column_KeyError (t : DynamicTable) (column_name : string)
    (l1 : list Row) (row : Row) (l2 : list Row) :
  column_name ∈ column_names t →
  rows t = l1 ++ row :: l2 →
  Forall (λ r : Row, is_Some (r !! column_name)) l1 →
  row !! column_name = None →
  ∃ index,
    column_names t !! index = Some column_name
    ∧ delete_column t column_name
      = (Raise (KeyError column_name),
         {| column_info := delete index (column_info t);
            rows := (delete column_name <$> l1) ++ row :: l2 |}).
Proof.
  intros Hin Hrows Hl1 Hrow. destruct (list_find_elem _ _ Hin) as [index Hfind].
  exists index. pose proof Hfind as (Hi & _ & _)%list_find_Some.
  split; [done|]. unfold delete_column.
  by rewrite Hfind, Hrows, del_key_rows_stops.
Qed.

(** The schema has a column "A"; the first row has the key, the second has
    not. *)
Lemma delete_column_KeyError_witness :
  ∃ index,
    [ "A" ] !! index = Some "A"
    ∧ delete_column
        {| column_info := [("A", Cint)];
           rows := [ {[ "A" := VInt 1 ]}; ∅; {[ "A" := VInt 3 ]} ] |} "A"
      = (Raise (KeyError "A"),
         {| column_info := delete index [("A", Cint)];
            rows := [ ∅; ∅; {[ "A" := VInt 3 ]} ] |}).
Proof.
  refine (delete_column_KeyError
            {| column_info := [("A", Cint)];
               rows := [ {[ "A" := VInt 1 ]}; ∅; {[ "A" := VInt 3 ]} ] |}
            "A" [ {[ "A" := VInt 1 ]} ] ∅ [ {[ "A" := VInt 3 ]} ] _ _ _ _).
  - apply (bool_decide_unpack _). by vm_compute.
  - reflexivity.
  - repeat constructor. by eexists.
  - reflexivity.
Defined.

(** ** What add_row and update_row store *)

Lemma fold_insert_notin (pairs : list (string * value)) (d : Row) k :
  k ∉ pairs.*1 →
  fold_left (λ d kv, <[kv.1 := kv.2]> d) pairs d !! k = d !! k.
Proof.
  revert d. induction pairs as [|[k' v'] pairs IH]; intros d Hk; simpl; [done|].
  simpl in Hk. apply not_elem_of_cons in Hk as [Hne Hk].
  rewrite IH by done. by apply lookup_insert_ne.
Qed.

Lemma fold_insert_lookup_NoDup (pairs : list (string * value)) (d : Row) k v :
  NoDup pairs.*1 → (k, v) ∈ pairs →
  fold_left (λ d kv, <[kv.1 := kv.2]> d) pairs d !! k = Some v.
Proof.
  revert d. induction pairs as [|[k' v'] pairs IH]; intros d Hnd Hin; simpl.
  - by apply elem_of_nil in Hin.
  - simpl in Hnd. apply NoDup_cons in Hnd as [Hk' Hnd].
    apply elem_of_cons in Hin as [?|Hin]; simplify_eq.
    + rewrite fold_insert_notin by done. apply lookup_insert_eq.
    + by apply IH.
Qed.

Lemma py_zip_lookup {A B} (a : list A) (b : list B) j x y :
  a !! j = Some x → b !! j = Some y → py_zip a b !! j = Some (x, y).
Proof.
  revert b j. induction a as [|x' a IH]; intros [|y' b] [|j]; simpl; try done.
  - intros. by simplify_eq.
  - apply IH.
Qed.

(** With unique column names, the row built from the values has, under
    each column, the value at the column's position. *)
Lemma new_row_lookup_position t values j column_name column_type :
  NoDup (column_names t) →
  length values = length (column_info t) →
  column_info t !! j = Some (column_name, column_type) →
  new_row t values !! column_name = values !! j.
Proof.
  intros Hnd Hlen Hj.
  assert (column_names t !! j = Some column_name) as Hname.
  { unfold column_names. by rewrite list_lookup_fmap, Hj. }
  destruct (values !! j) as [v|] eqn:Hv.
  - unfold new_row, py_dict. apply fold_insert_lookup_NoDup.
    + rewrite py_zip_fst; [done|]. unfold column_names. by rewrite length_fmap.
    + eapply list_elem_of_lookup_2. by apply py_zip_lookup.
  - apply lookup_ge_None in Hv. apply lookup_lt_Some in Hj. lia.
Qed.

(** X4: when [add_row] returns on a table with unique column names, the schema
    and the rows that were there are as before, and one row is appended: its
    keys are the column names and, under each column, it has the value given
    at the column's position. *)
Theorem add_row_stores_values (t : DynamicTable) (values : list value) :
  NoDup (column_names t) →
  (add_row t values).1 = Return tt →
  ∃ row,
    (add_row t values).2
    = {| column_info := column_info t; rows := rows t ++ [row] |}
    ∧ dom row = list_to_set (column_names t)
    ∧ ∀ j column_name column_type,
        column_info t !! j = Some (column_name, column_type) →
        row !! column_name = values !! j ∧ is_Some (values !! j).
Proof.
  intros Hnd Hret. destruct (add_row_cases t values) as (o & Hch & Heq).
  rewrite Heq in Hret |- *. simpl in Hret. subst o.
  inversion Hch as [| |Hlen Hall]; subst.
  exists (new_row t values). split_and!; [done | by apply new_row_dom |].
  intros j c ty Hj. split; [by eapply new_row_lookup_position|].
  apply lookup_lt_is_Some. rewrite Hlen. by eapply lookup_lt_Some.
Qed.

Lemma add_row_stores_values_witness :
  let t := {| column_info := [("Name", Cstr); ("Age", Cint)];
              rows := [ {[ "Name" := VStr "Alice"; "Age" := VInt 25 ]} ] |} in
  let values := [VStr "Bob"; VInt 30] in
  ∃ row,
    (add_row t values).2
    = {| column_info := column_info t; rows := rows t ++ [row] |}
    ∧ dom row = list_to_set (column_names t)
    ∧ ∀ j column_name column_type,
        column_info t !! j = Some (column_name, column_type) →
        row !! column_name = values !! j ∧ is_Some (values !! j).
Proof.
  intros t values. apply (add_row_stores_values t values).
  - apply (bool_decide_unpack _). by vm_compute.
  - reflexivity.
Defined.

(** X5: when [update_row] returns, the index is within the rows; the schema, the
    number of rows and every row at another index are as before; and, with
    unique column names, the row at the index has, under each column, the
    value given at the column's position (nothing of the replaced row is
    kept). *)
Theorem update_row_replaces (t : DynamicTable) (row_index : Z)
    (values : list value) :
  (update_row t row_index values).1 = Return tt →
  let t' := (update_row t row_index values).2 in
  (0 ≤ row_index < Z.of_nat (length (rows t)))%Z
  ∧ column_info t' = column_info t
  ∧ length (rows t') = length (rows t)
  ∧ (∀ k, k ≠ Z.to_nat row_index → rows t' !! k = rows t !! k)
  ∧ ∃ row,
      rows t' !! Z.to_nat row_index = Some row
      ∧ dom row = list_to_set (column_names t)
      ∧ (NoDup (column_names t) →
         ∀ j column_name column_type,
           column_info t !! j = Some (column_name, column_type) →
           row !! column_name = values !! j).
Proof.
  intros Hret t'. subst t'.
  destruct (update_row_cases t row_index values)
    as [[_ Heq]|[Hi (o & Hch & Heq)]]; rewrite Heq in Hret |- *;
    simpl in Hret; [done|]. subst o.
  inversion Hch as [| |Hlen Hall]; subst. simpl.
  split_and!; [lia.. | done | by rewrite length_insert | |].
  - intros k Hk. by apply list_lookup_insert_ne.
  - exists (new_row t values). split_and!.
    + apply list_lookup_insert_eq. lia.
    + by apply new_row_dom.
    + intros Hnd j c ty Hj. by eapply new_row_lookup_position.
Qed.

Lemma update_row_replaces_witness :
  let t := {| column_info := [("Name", Cstr); ("Age", Cint)];
              rows := [ {[ "Name" := VStr "Alice"; "Age" := VInt 25 ]};
                        {[ "Name" := VStr "Bob"; "Age" := VInt 30 ]} ] |} in
  let values := [VStr "Carol"; VInt 41] in
  let t' := (update_row t 1 values).2 in
  (0 ≤ 1 < Z.of_nat (length (rows t)))%Z
  ∧ column_info t' = column_info t
  ∧ length (rows t') = length (rows t)
  ∧ (∀ k, k ≠ Z.to_nat 1 → rows t' !! k = rows t !! k)
  ∧ ∃ row,
      rows t' !! Z.to_nat 1 = Some row
      ∧ dom row = list_to_set (column_names t)
      ∧ (NoDup (column_names t) →
         ∀ j column_name column_type,
           column_info t !! j = Some (column_name, column_type) →
           row !! column_name = values !! j).
Proof.
  intros t values.
  apply (update_row_replaces t 1 values). reflexivity.
Defined.

(** X6: after [add_row] has returned, [update_row] at the index of the new row
    with the same values returns and changes nothing. *)
Theorem add_row_then_update_row (t : DynamicTable) (values : list value) :
  (add_row t values).1 = Return tt →
  update_row (add_row t values).2 (Z.of_nat (length (rows t))) values
  = (Return tt, (add_row t values).2).
Proof.
  intros Hret. destruct (add_row_cases t values) as (o & Hch & Heq).
  rewrite Heq in Hret |- *. simpl in Hret. subst o.
  inversion Hch as [| |Hlen Hall]; subst.
  rewrite update_row_ok; simpl.
  - rewrite Nat2Z.id. f_equal. f_equal.
    replace (length (rows t)) with (length (rows t) + 0) at 1 by lia.
    by rewrite insert_app_r.
  - rewrite length_app. simpl. lia.
  - done.
Qed.

Lemma add_row_then_update_row_witness :
  update_row (add_row table [VStr "Dan"; VInt 52; VStr "Boston"; VBool false]).2
    (Z.of_nat (length (rows table)))
    [VStr "Dan"; VInt 52; VStr "Boston"; VBool false]
  = (Return tt,
     (add_row table [VStr "Dan"; VInt 52; VStr "Boston"; VBool false]).2).
Proof.
  apply (add_row_then_update_row table). reflexivity.
Defined.

(** ** The types of the stored values *)

Lemma new_row_instance t values column_name column_type v :
  NoDup (column_names t) →
  all_instances (column_info t) values →
  (column_name, column_type) ∈ column_info t →
  new_row t values !! column_name = Some v →
  isinstance v column_type = true.
Proof.
  intros Hnd Hall [j Hj]%list_elem_of_lookup Hv.
  rewrite (new_row_lookup_position t values j column_name column_type) in Hv;
    [|done|by rewrite (Forall2_length _ _ _ Hall)|done].
  by apply (Forall2_lookup_lr _ _ _ j _ _ Hall Hj Hv).
Qed.

Lemma well_typed_rows t columns' rows' :
  well_typed t →
  (∀ column, column ∈ columns' → column ∈ column_info t) →
  (∀ row', row' ∈ rows' → ∃ row, row ∈ rows t ∧ row' ⊆ row) →
  well_typed {| column_info := columns'; rows := rows' |}.
Proof.
  intros Hwt Hcols Hrows row' c ty v Hrow' Hc Hv. simpl in *.
  destruct (Hrows _ Hrow') as (row & Hrow & Hsub).
  apply (Hwt row c ty v); [done | by apply Hcols |].
  by eapply lookup_weaken.
Qed.

Lemma add_column_well_typed t column_name column_type :
  well_typed t → well_typed (add_column t column_name column_type).2.
Proof.
  intros Hwt. unfold add_column. case_bool_decide as Hin; simpl; [done|].
  intros row' c ty v (row & -> & Hrow)%list_elem_of_fmap Hc Hv. simpl in *.
  destruct (decide (column_name = c)) as [->|Hne].
  - rewrite lookup_insert_eq in Hv. left. by simplify_eq.
  - rewrite lookup_insert_ne in Hv by done.
    apply elem_of_app in Hc as [Hc|Hc%list_elem_of_singleton];
      [|by simplify_eq].
    by apply (Hwt row c ty v).
Qed.

Lemma delete_column_well_typed t column_name :
  well_typed t → well_typed (delete_column t column_name).2.
Proof.
  intros Hwt. unfold delete_column.
  destruct (list_find _ _) as [[index x]|]; [|done].
  destruct (del_key_rows column_name (rows t)) as [o rows'] eqn:Hd. simpl.
  apply (well_typed_rows t); [done | |].
  - intros column. apply list_elem_of_delete_inv.
  - intros row' Hrow'.
    destruct (del_key_rows_elem _ _ _ _ _ Hd Hrow') as (row & Hrow & [->| ->]);
      exists row; (split; [done|]); [done | apply delete_subseteq].
Qed.

Lemma stored_row_well_typed t values rows' :
  NoDup (column_names t) → well_typed t →
  all_instances (column_info t) values →
  (∀ row, row ∈ rows' → row = new_row t values ∨ row ∈ rows t) →
  well_typed {| column_info := column_info t; rows := rows' |}.
Proof.
  intros Hnd Hwt Hall Hrows row c ty v Hrow Hc Hv. simpl in *.
  destruct (Hrows _ Hrow) as [->|Hold].
  - right. by eapply new_row_instance.
  - by apply (Hwt row c ty v).
Qed.

Lemma sublist_rows_well_typed t rows' :
  well_typed t → sublist rows' (rows t) →
  well_typed {| column_info := column_info t; rows := rows' |}.
Proof.
  intros Hwt Hsub. apply (well_typed_rows t); [done..|].
  intros row' Hrow'. exists row'. split; [by eapply elem_of_sublist | done].
Qed.

Lemma run_well_typed op t :
  well_formed t → well_typed t → well_typed (run op t).2.
Proof.
  intros [Hnd Hlock] Hwt. destruct op as [c ty|c|values|i values|i|]; simpl.
  - by apply add_column_well_typed.
  - by apply delete_column_well_typed.
  - destruct (add_row_cases t values) as (o & Hch & ->).
    inversion Hch as [| |Hlen Hall]; subst; simpl; [done..|].
    apply (stored_row_well_typed t values); [done..|].
    intros row [?| ->%list_elem_of_singleton]%elem_of_app; by eauto.
  - destruct (update_row_cases t i values)
      as [[_ ->]|[_ (o & Hch & ->)]]; [done|].
    inversion Hch as [| |Hlen Hall]; subst; simpl; [done..|].
    apply (stored_row_well_typed t values); [done..|].
    intros row. apply list_elem_of_insert_inv.
  - unfold del_rows_item.
    destruct (py_del_item (rows t) (Z.of_N i)) as [rows'|] eqn:Hd; [|done].
    apply py_del_item_Some in Hd as (k & _ & -> & _).
    apply sublist_rows_well_typed; [done | apply delete_sublist].
  - destruct (remove_duplicates_rows t) as [Hcols Hsub].
    destruct (remove_duplicates t).2 as [columns' rows']. simpl in *. subst.
    by apply sublist_rows_well_typed.
Qed.

(** X7: from a new table with unique column names, whatever operations are run,
    returning or raising: every value stored under a column is [None] or an
    instance of the column's class, also under a column that was deleted and
    added again with another class. *)
Theorem reachable_well_typed (columns : list (string * pyclass))
    (t : DynamicTable) :
  NoDup columns.*1 → reachable (new_table columns) t →
  well_typed t ∧ ∀ op, well_typed (run op t).2.
Proof.
  intros Hnd Hreach.
  assert (well_formed t ∧ well_typed t) as [Hwf Hwt].
  { induction Hreach as [|t op Hreach [IHwf IHwt]].
    - split; [by apply new_table_well_formed|].
      by intros row c ty v ?%elem_of_nil.
    - split; [by apply run_well_formed | by apply run_well_typed]. }
  split; [done|]. intros op. by apply run_well_typed.
Qed.

Lemma reachable_well_typed_witness :
  well_typed (run_all session (new_table table_info))
  ∧ ∀ op, well_typed (run op (run_all session (new_table table_info))).2.
Proof.
  apply (reachable_well_typed table_info).
  - apply (bool_decide_unpack _). by vm_compute.
  - apply reachable_run_all. constructor.
Defined.

(** With a column name twice in the schema the invariant is lost: the row
    below is accepted, and holds an [int] under a column of class [str]. *)
Example repeated_name_ill_typed :
  let t := new_table [("A", Cstr); ("A", Cint)] in
  add_row t [VStr "x"; VInt 1]
  = (Return tt,
     {| column_info := [("A", Cstr); ("A", Cint)];
        rows := [ {[ "A" := VInt 1 ]} ] |})
  ∧ isinstance (VInt 1) Cstr = false.
Proof. split; reflexivity. Qed.

(** ** What remove_duplicates leaves *)

Section FirstOccurrences.

Variable columns : list (string * pyclass).

Lemma same_cell_trans a b c :
  same_cell a b = true → same_cell b c = true → same_cell a c = true.
Proof. destruct a, b, c; simpl; try done. apply py_item_eq_trans. Qed.

Lemma duplicate_rows_trans r1 r2 r3 :
  duplicate_rows columns r1 r2 = true → duplicate_rows columns r2 r3 = true →
  duplicate_rows columns r1 r3 = true.
Proof.
  unfold duplicate_rows. rewrite !forallb_forall. intros H12 H23 column Hin.
  eapply same_cell_trans; [by apply H12 | by apply H23].
Qed.

(** A row that is kept has no duplicate among the rows that came before. *)
Lemma first_occurrences_no_earlier earlier rs r :
  r ∈ first_occurrences columns earlier rs →
  existsb (λ row0, duplicate_rows columns row0 r) earlier = false.
Proof.
  revert earlier. induction rs as [|row rs IH]; intros earlier; simpl.
  - by intros ?%elem_of_nil.
  - assert (r ∈ first_occurrences columns (earlier ++ [row]) rs →
            existsb (λ row0, duplicate_rows columns row0 r) earlier = false)
      as Hrest.
    { intros Hin%IH. rewrite existsb_app in Hin.
      by apply orb_false_iff in Hin as [? _]. }
    destruct (existsb (λ row0, duplicate_rows columns row0 row) earlier)
      eqn:Hdup; [done|].
    intros [->|Hin]%elem_of_cons; [done | by apply Hrest].
Qed.

Lemma first_occurrences_distinct earlier rs i j r1 r2 :
  i < j →
  first_occurrences columns earlier rs !! i = Some r1 →
  first_occurrences columns earlier rs !! j = Some r2 →
  duplicate_rows columns r1 r2 = false.
Proof.
  revert earlier i j. induction rs as [|row rs IH]; intros earlier i j Hij;
    simpl; [done|].
  destruct (existsb _ earlier); [by apply IH|].
  destruct i as [|i], j as [|j]; simpl; try lia.
  - intros ? Hj%list_elem_of_lookup_2. simplify_eq.
    apply first_occurrences_no_earlier in Hj. rewrite existsb_app in Hj.
    apply orb_false_iff in Hj as [_ Hj]. simpl in Hj.
    by rewrite orb_false_r in Hj.
  - apply IH. lia.
Qed.

(** Every row is kept, or is a duplicate of a kept row or of a row that came
    before. *)
Lemma first_occurrences_represent earlier rs r :
  r ∈ rs →
  r ∈ first_occurrences columns earlier rs
  ∨ (∃ k, k ∈ first_occurrences columns earlier rs
          ∧ duplicate_rows columns k r = true)
  ∨ (∃ e, e ∈ earlier ∧ duplicate_rows columns e r = true).
Proof.
  revert earlier. induction rs as [|row rs IH]; intros earlier; simpl.
  - by intros ?%elem_of_nil.
  - intros Hin.
    destruct (existsb (λ row0, duplicate_rows columns row0 row) earlier)
      eqn:Hdup.
    + apply existsb_exists in Hdup as (e0 & He0%list_elem_of_In & Hdup0).
      apply elem_of_cons in Hin as [->|Hin]; [by eauto|].
      destruct (IH (earlier ++ [row]) Hin) as [?|[?|(e & He & Hdup)]];
        [by eauto..|].
      right. right.
      apply elem_of_app in He as [He| ->%list_elem_of_singleton];
        [by eauto|].
      exists e0. split; [done | by eapply duplicate_rows_trans].
    + apply elem_of_cons in Hin as [->|Hin]; [left; by left|].
      destruct (IH (earlier ++ [row]) Hin) as [?|[(k & ? & ?)|(e & He & ?)]].
      * left. by right.
      * right. left. exists k. split; [by right | done].
      * apply elem_of_app in He as [He| ->%list_elem_of_singleton];
          [by eauto|].
        right. left. exists row. split; [by left | done].
Qed.

End FirstOccurrences.

(** X8: on a table whose rows are in lockstep with the schema, no two of the
    rows [remove_duplicates] leaves are duplicates of each other. *)
Theorem remove_duplicates_leaves_no_duplicates (t : DynamicTable)
    (i j : nat) (r1 r2 : Row) :
  lockstep t → i < j →
  rows (remove_duplicates t).2 !! i = Some r1 →
  rows (remove_duplicates t).2 !! j = Some r2 →
  duplicate_rows (column_info t) r1 r2 = false.
Proof.
  intros Hlock Hij. unfold remove_duplicates.
  rewrite (remove_duplicates_lockstep t Hlock). simpl.
  by apply first_occurrences_distinct.
Qed.

Lemma remove_duplicates_leaves_no_duplicates_witness :
  duplicate_rows (column_info table)
    {[ "Name" := VStr "Alice"; "Age" := VInt 25;
       "City" := VStr "New York"; "IsStudent" := VBool false ]}
    {[ "Name" := VStr "Charlie"; "Age" := VInt 22;
       "City" := VStr "Los Angeles"; "IsStudent" := VBool true ]}
  = false.
Proof.
  apply (remove_duplicates_leaves_no_duplicates table 0 2).
  - apply table_well_formed.
  - lia.
  - reflexivity.
  - reflexivity.
Defined.

(** X9: on a table whose rows are in lockstep with the schema,
    [remove_duplicates] loses no content: every row of the table is among
    the rows left, or is a duplicate of one of them, that is, holds under
    every column a value that is [==] to the value of that row or is the
    very same object (as the NaN of two rows that came in bodies is). *)
Theorem remove_duplicates_keeps_a_representative (t : DynamicTable) (row : Row) :
  lockstep t → row ∈ rows t →
  row ∈ rows (remove_duplicates t).2
  ∨ ∃ kept, kept ∈ rows (remove_duplicates t).2
            ∧ duplicate_rows (column_info t) kept row = true.
Proof.
  intros Hlock Hrow. unfold remove_duplicates.
  rewrite (remove_duplicates_lockstep t Hlock). simpl.
  destruct (first_occurrences_represent (column_info t) [] (rows t) row Hrow)
    as [?|[?|(e & He%elem_of_nil & _)]]; by eauto.
Qed.

Lemma remove_duplicates_keeps_a_representative_witness :
  let row : Row := {[ "Name" := VStr "Alice"; "Age" := VInt 25;
                      "City" := VStr "New York"; "IsStudent" := VBool false ]} in
  row ∈ rows (remove_duplicates table).2
  ∨ ∃ kept, kept ∈ rows (remove_duplicates table).2
            ∧ duplicate_rows (column_info table) kept row = true.
Proof.
  intros row. apply (remove_duplicates_keeps_a_representative table row).
  - apply table_well_formed.
  - by repeat constructor.
Defined.

(** ** Database *)

Lemma Database_eq (d1 d2 : Database) : tables d1 = tables d2 → d1 = d2.
Proof. destruct d1, d2. simpl. by intros ->. Qed.

(** X11: [add_table] never replaces a table: it raises [DuplicateTable] exactly
    when the name is taken and then leaves the database as it was; when it
    returns, the name holds an empty table with the given columns and every
    other name holds what it held. *)
Theorem add_table_fresh_name_only (database : Database) (table_name : string)
    (columns : list (string * pyclass)) :
  ((add_table database table_name columns).1 = Raise (DuplicateTable table_name)
   ↔ is_Some (tables database !! table_name))
  ∧ ((add_table database table_name columns).1 = Return tt
     ↔ tables database !! table_name = None)
  ∧ (is_Some (tables database !! table_name) →
     (add_table database table_name columns).2 = database)
  ∧ (tables database !! table_name = None →
     tables (add_table database table_name columns).2 !! table_name
     = Some {| column_info := columns; rows := [] |}
     ∧ ∀ other, other ≠ table_name →
         tables (add_table database table_name columns).2 !! other
         = tables database !! other).
Proof.
  unfold add_table.
  destruct (tables database !! table_name) as [t|] eqn:Hlookup; simpl.
  - by split_and!.
  - split_and!; try done; try (split; [done | by intros [? ?]]);
      try (by intros [? ?]).
    intros _. split; [apply lookup_insert_eq|].
    intros other Hne. by apply lookup_insert_ne.
Qed.

Lemma add_table_fresh_name_only_witness :
  (add_table database "Table1" [("A", Cint)]).2 = database
  ∧ tables (add_table database "Table2" [("A", Cint)]).2 !! "Table2"
    = Some {| column_info := [("A", Cint)]; rows := [] |}
  ∧ tables (add_table database "Table2" [("A", Cint)]).2 !! "Table1"
    = tables database !! "Table1".
Proof.
  split_and!.
  - apply (add_table_fresh_name_only database "Table1" [("A", Cint)]).
    by eexists.
  - apply (add_table_fresh_name_only database "Table2" [("A", Cint)]).
    reflexivity.
  - apply (add_table_fresh_name_only database "Table2" [("A", Cint)]);
      [reflexivity | done].
Defined.

(** X10: [add_table] under a free name followed by [remove_table] of that name:
    both return and the database is as it was before. *)
Theorem add_table_then_remove_table (database : Database)
    (table_name : string) (columns : list (string * pyclass)) :
  tables database !! table_name = None →
  (add_table database table_name columns).1 = Return tt
  ∧ remove_table (add_table database table_name columns).2 table_name
    = (Return tt, database).
Proof.
  intros Hfree. unfold add_table. rewrite Hfree. simpl. split; [done|].
  unfold remove_table. simpl. rewrite lookup_insert_eq. f_equal.
  apply Database_eq. simpl. by apply delete_insert_id.
Qed.

Lemma add_table_then_remove_table_witness :
  (add_table database "Table2" table_info).1 = Return tt
  ∧ remove_table (add_table database "Table2" table_info).2 "Table2"
    = (Return tt, database).
Proof.
  apply (add_table_then_remove_table database "Table2" table_info).
  reflexivity.
Defined.

(** X12: [remove_table] raises [UnknownTable] exactly when the name holds no
    table and then leaves the database as it was; when it returns, the name
    holds no table any more and every other name holds what it held. *)
Theorem remove_table_that_name_only (database : Database)
    (table_name : string) :
  ((remove_table database table_name).1 = Raise (UnknownTable table_name)
   ↔ tables database !! table_name = None)
  ∧ (tables database !! table_name = None →
     (remove_table database table_name).2 = database)
  ∧ (is_Some (tables database !! table_name) →
     (remove_table database table_name).1 = Return tt
     ∧ tables (remove_table database table_name).2 !! table_name = None
     ∧ ∀ other, other ≠ table_name →
         tables (remove_table database table_name).2 !! other
         = tables database !! other).
Proof.
  unfold remove_table.
  destruct (tables database !! table_name) as [t|] eqn:Hlookup; simpl.
  - split_and!; try done. intros _. split_and!; [done | apply lookup_delete_eq |].
    intros other Hne. by apply lookup_delete_ne.
  - split_and!; try done; try (by intros [? ?]).
Qed.

Lemma remove_table_that_name_only_witness :
  (remove_table database "Table2").2 = database
  ∧ (remove_table database "Table1").1 = Return tt
  ∧ tables (remove_table database "Table1").2 !! "Table1" = None.
Proof.
  split_and!.
  - apply (remove_table_that_name_only database "Table2"). reflexivity.
  - apply (remove_table_that_name_only database "Table1"). by eexists.
  - apply (remove_table_that_name_only database "Table1"). by eexists.
Defined.

(** ** The handlers *)

Lemma insert_same_table (database : Database) table_name t :
  tables database !! table_name = Some t →
  {| tables := <[table_name := t]> (tables database) |} = database.
Proof. intros Hlookup. apply Database_eq. simpl. by apply insert_id. Qed.

Lemma checked_Raise_ValueError t values e :
  checked t values (Raise e) → is_ValueError e = true.
Proof. by inversion 1. Qed.

(** The handlers on a body that has a list of scalars under 'values'. *)
Lemma add_row_route_cases (database : Database) (table_name : string)
    (values : list value) :
  match tables database !! table_name with
  | None =>
      add_row_route database table_name values
      = (Return (Error 404 (UnknownTable table_name)), database)
  | Some t =>
      match (add_row t values).1 with
      | Return _ =>
          add_row_route database table_name values
          = (Return (Message 201),
             {| tables :=
                  <[table_name := {| column_info := column_info t;
                                     rows := rows t ++ [new_row t values] |}]>
                    (tables database) |})
      | Raise e =>
          add_row_route database table_name values
          = (Return (Error 400 e), database)
          ∧ (e = ArityMismatch ∨ ∃ c expected actual,
               e = TypeMismatch c expected actual)
      end
  end.
Proof.
  unfold add_row_route.
  destruct (tables database !! table_name) as [t|] eqn:Hlookup; [|done].
  destruct (add_row_cases t values) as (o & Hch & ->). unfold answer. simpl.
  destruct o as [[]|e]; [done|].
  rewrite (checked_Raise_ValueError _ _ _ Hch), insert_same_table by done.
  split; [done|]. inversion Hch; by eauto.
Qed.

Lemma update_row_route_cases (database : Database) (table_name : string)
    (row_index : N) (values : list value) :
  match tables database !! table_name with
  | None =>
      update_row_route database table_name row_index values
      = (Return (Error 404 (UnknownTable table_name)), database)
  | Some t =>
      match (update_row t (Z.of_N row_index) values).1 with
      | Return _ =>
          N.to_nat row_index < length (rows t)
          ∧ update_row_route database table_name row_index values
            = (Return (Message 200),
               {| tables :=
                    <[table_name :=
                        {| column_info := column_info t;
                           rows := <[N.to_nat row_index := new_row t values]>
                                     (rows t) |}]>
                      (tables database) |})
      | Raise e =>
          update_row_route database table_name row_index values
          = (Return (Error 400 e), database)
          ∧ (e = IndexOutOfBounds ↔ (length (rows t) ≤ N.to_nat row_index)%nat)
      end
  end.
Proof.
  unfold update_row_route.
  destruct (tables database !! table_name) as [t|] eqn:Hlookup; [|done].
  unfold answer.
  destruct (update_row_cases t (Z.of_N row_index) values)
    as [[Hi ->]|[Hi (o & Hch & ->)]]; simpl.
  - rewrite insert_same_table by done. split; [done|]. split; [lia|done].
  - destruct o as [[]|e].
    + split; [lia|]. by replace (Z.to_nat (Z.of_N row_index))
        with (N.to_nat row_index) by lia.
    + rewrite (checked_Raise_ValueError _ _ _ Hch), insert_same_table by done.
      simpl. split; [done|]. split; [|lia].
      intros ->. inversion Hch.
Qed.

(** On an object that has items the handlers do what they do on the list of
    the items. *)
Lemma add_row_handler_items database table_name values items :
  py_items values = Some items →
  add_row_handler database table_name values
  = add_row_route database table_name items.
Proof.
  intros Hitems. unfold add_row_handler, add_row_route, add_row_object.
  by rewrite Hitems.
Qed.

Lemma update_row_handler_items database table_name row_index values items :
  py_items values = Some items →
  update_row_handler database table_name row_index values
  = update_row_route database table_name row_index items.
Proof.
  intros Hitems.
  unfold update_row_handler, update_row_route, update_row_object.
  by rewrite Hitems.
Qed.

(** The body [{"values": "ab"}] adds the row of the two characters to a table
    of two [str] columns; a body without 'values', or with a number under
    it, is not answered: the [TypeError] of [len] passes the handler, also
    in [update_row] at an index within the rows, while an index past the
    rows is answered before the values are looked at. *)
Example handlers_and_bodies :
  let database0 :=
    {| tables := {[ "T" := new_table [("A", Cstr); ("B", Cstr)] ]} |} in
  add_row_handler database0 "T" (Scalar (VStr "ab"))
  = (Return (Message 201),
     {| tables :=
          {[ "T" := {| column_info := [("A", Cstr); ("B", Cstr)];
                       rows := [ {[ "A" := VStr "a"; "B" := VStr "b" ]} ] |} ]} |})
  ∧ add_row_handler database0 "T" (Scalar VNone) = (Raise TypeError, database0)
  ∧ add_row_handler database "Table1" (Scalar (VInt 7))
    = (Raise TypeError, database)
  ∧ update_row_handler database "Table1" 3 (Scalar VNone)
    = (Raise TypeError, database)
  ∧ update_row_handler database "Table1" 4 (Scalar VNone)
    = (Return (Error 400 IndexOutOfBounds), database).
Proof. split_and!; reflexivity. Qed.

(** X13: what the handler of [POST .../rows] does with the 'values' of the
    body.  Without a table of that name it answers 404.  Otherwise, when
    the 'values' have no length (the body has no key 'values', or has
    [null], a [bool] or a number under it), the [TypeError] of [len] passes
    the handler, which answers nothing, and the database is as it was.  When
    they have items (a list, or a [str] with its characters), the handler
    answers: 201, with the row appended to that table, when [add_row]
    returns on the items; and 400, with the database as it was, when
    [add_row] raises, which it only does with a [ValueError] (a wrong number
    of values or a value of the wrong type). *)
Theorem add_row_handler_answers (database : Database) (table_name : string)
    (values : pyobject) :
  match tables database !! table_name with
  | None =>
      add_row_handler database table_name values
      = (Return (Error 404 (UnknownTable table_name)), database)
  | Some t =>
      match py_items values with
      | None =>
          add_row_handler database table_name values
          = (Raise TypeError, database)
      | Some items =>
          match (add_row t items).1 with
          | Return _ =>
              add_row_handler database table_name values
              = (Return (Message 201),
                 {| tables :=
                      <[table_name :=
                          {| column_info := column_info t;
                             rows := rows t ++ [new_row t items] |}]>
                        (tables database) |})
          | Raise e =>
              add_row_handler database table_name values
              = (Return (Error 400 e), database)
              ∧ (e = ArityMismatch ∨ ∃ c expected actual,
                   e = TypeMismatch c expected actual)
          end
      end
  end.
Proof.
  destruct (py_items values) as [items|] eqn:Hitems.
  - rewrite (add_row_handler_items _ _ _ _ Hitems).
    pose proof (add_row_route_cases database table_name items) as Hcases.
    by destruct (tables database !! table_name).
  - unfold add_row_handler, add_row_object. rewrite Hitems.
    destruct (tables database !! table_name) as [t|] eqn:Hlookup; [|done].
    unfold answer. simpl. by rewrite insert_same_table.
Qed.

(** X14: what the handler of [PUT .../rows/<int:row_index>] does with the
    'values' of the body.  Without a table of that name it answers 404.
    An index past the rows is answered with 400 and the [IndexError],
    whatever the 'values' are.  At an index within the rows, 'values'
    without a length (no key 'values', [null], a [bool] or a number) make
    the [TypeError] of [len] pass the handler, which answers nothing; with
    items (a list, or a [str] with its characters) the handler answers:
    200, with the row at the index replaced, when [update_row] returns on
    the items, and 400 when it raises a [ValueError].  Whenever the handler
    does not answer 200 the database is as it was. *)
Theorem update_row_handler_answers (database : Database) (table_name : string)
    (row_index : N) (values : pyobject) :
  match tables database !! table_name with
  | None =>
      update_row_handler database table_name row_index values
      = (Return (Error 404 (UnknownTable table_name)), database)
  | Some t =>
      if bool_decide (length (rows t) ≤ N.to_nat row_index)%nat then
        update_row_handler database table_name row_index values
        = (Return (Error 400 IndexOutOfBounds), database)
      else
        match py_items values with
        | None =>
            update_row_handler database table_name row_index values
            = (Raise TypeError, database)
        | Some items =>
            match (update_row t (Z.of_N row_index) items).1 with
            | Return _ =>
                update_row_handler database table_name row_index values
                = (Return (Message 200),
                   {| tables :=
                        <[table_name :=
                            {| column_info := column_info t;
                               rows :=
                                 <[N.to_nat row_index := new_row t items]>
                                   (rows t) |}]>
                          (tables database) |})
            | Raise e =>
                update_row_handler database table_name row_index values
                = (Return (Error 400 e), database)
                ∧ (e = ArityMismatch ∨ ∃ c expected actual,
                     e = TypeMismatch c expected actual)
            end
        end
  end.
Proof.
  destruct (tables database !! table_name) as [t|] eqn:Hlookup;
    [|by unfold update_row_handler; rewrite Hlookup].
  assert (((Z.of_N row_index <? 0)
           || (Z.of_N row_index >=? Z.of_nat (length (rows t))))%Z
          = bool_decide (length (rows t) ≤ N.to_nat row_index)%nat) as Hrange.
  { case_bool_decide.
    - apply orb_true_iff. right. rewrite Z.geb_leb. apply Z.leb_le. lia.
    - apply orb_false_iff. split; [apply Z.ltb_ge; lia|].
      rewrite Z.geb_leb. apply Z.leb_gt. lia. }
  destruct (py_items values) as [items|] eqn:Hitems.
  - rewrite (update_row_handler_items _ _ _ _ _ Hitems).
    pose proof (update_row_route_cases database table_name row_index items)
      as Hcases.
    rewrite Hlookup in Hcases.
    destruct (update_row_cases t (Z.of_N row_index) items)
      as [[Hi Heq]|[Hi (o & Hch & Heq)]]; rewrite Heq in Hcases |- *;
      simpl in Hcases |- *.
    + rewrite bool_decide_eq_true_2 by lia. by destruct Hcases.
    + rewrite bool_decide_eq_false_2 by lia.
      destruct o as [[]|e]; [by destruct Hcases|].
      split; [by destruct Hcases|]. inversion Hch; by eauto.
  - unfold update_row_handler, update_row_object.
    rewrite Hlookup, Hitems, Hrange. unfold answer.
    case_bool_decide; simpl; by rewrite insert_same_table.
Qed.

(** X15: on a well-formed table the handler of [DELETE .../columns/<column_name>]
    answers: 200 for a name of the schema, and then the name is no longer in
    the schema, the table is still well formed and has as many rows as
    before; 400 with the database as it was for any other name. *)
Theorem delete_column_route_answers (database : Database)
    (table_name : string) (t : DynamicTable) (column_name : string) :
  tables database !! table_name = Some t → well_formed t →
  (column_name ∈ column_names t →
   ∃ t',
     delete_column_route database table_name column_name
     = (Return (Message 200),
        {| tables := <[table_name := t']> (tables database) |})
     ∧ (column_name ∉ column_names t')
     ∧ well_formed t'
     ∧ length (rows t') = length (rows t))
  ∧ (column_name ∉ column_names t →
     delete_column_route database table_name column_name
     = (Return (Error 400 (UnknownColumn column_name)), database)).
Proof.
  intros Hlookup Hwf. unfold delete_column_route, answer. rewrite Hlookup.
  split; intros Hin.
  - pose proof (delete_column_well_formed t column_name Hwf) as Hwf'.
    destruct Hwf as [Hnd Hlock].
    destruct (list_find_elem _ _ Hin) as [index Hfind].
    pose proof Hfind as (Hindex & _ & _)%list_find_Some.
    assert (delete_column t column_name
            = (Return tt,
               {| column_info := delete index (column_info t);
                  rows := delete column_name <$> rows t |})) as Heq.
    { apply delete_column_found; [done|]. apply Forall_forall.
      intros row Hrow. by apply (lockstep_lookup t). }
    rewrite Heq in Hwf' |- *. simpl. eexists. split_and!; [done| |done|].
    + unfold column_names in *. simpl. rewrite list_fmap_delete.
      intros Hstill%(elem_of_list_to_set (C := gset string)).
      rewrite (list_to_set_delete _ _ column_name) in Hstill by done.
      apply elem_of_difference in Hstill as [_ Hstill].
      by apply Hstill, elem_of_singleton.
    + simpl. by rewrite length_fmap.
  - rewrite (delete_column_not_found t column_name Hin). simpl.
    by rewrite insert_same_table.
Qed.

Lemma delete_column_route_answers_witness :
  (∃ t',
     delete_column_route database "Table1" "City"
     = (Return (Message 200),
        {| tables := <["Table1" := t']> (tables database) |})
     ∧ ("City" ∉ column_names t')
     ∧ well_formed t'
     ∧ length (rows t') = length (rows table))
  ∧ delete_column_route database "Table1" "Email"
    = (Return (Error 400 (UnknownColumn "Email")), database).
Proof.
  destruct (delete_column_route_answers database "Table1" table "City")
    as [Hcity _]; [reflexivity | apply table_well_formed |].
  destruct (delete_column_route_answers database "Table1" table "Email")
    as [_ Hemail]; [reflexivity | apply table_well_formed |].
  split.
  - apply Hcity. apply (bool_decide_unpack _). by vm_compute.
  - apply Hemail. apply (bool_decide_unpack _). by vm_compute.
Defined.

(** X16: on a table whose rows are in lockstep with the schema the handler of
    [POST .../remove_duplicates] answers 200 and leaves the first
    occurrences in the table: the rows that no earlier row is a duplicate
    of, two rows being duplicates when under every column their values are
    [==] or the very same object. *)
Theorem remove_duplicates_route_answers (database : Database)
    (table_name : string) (t : DynamicTable) :
  tables database !! table_name = Some t → lockstep t →
  remove_duplicates_route database table_name
  = (Return (Message 200),
     {| tables :=
          <[table_name :=
              {| column_info := column_info t;
                 rows := first_occurrences (column_info t) [] (rows t) |}]>
            (tables database) |}).
Proof.
  intros Hlookup Hlock. unfold remove_duplicates_route, answer.
  rewrite Hlookup. unfold remove_duplicates.
  by rewrite (remove_duplicates_lockstep t Hlock).
Qed.

Lemma remove_duplicates_route_answers_witness :
  remove_duplicates_route database "Table1"
  = (Return (Message 200),
     {| tables :=
          <["Table1" :=
              {| column_info := column_info table;
                 rows := first_occurrences (column_info table) []
                           (rows table) |}]>
            (tables database) |}).
Proof.
  apply (remove_duplicates_route_answers database "Table1" table).
  - reflexivity.
  - apply table_well_formed.
Defined.

(** Two requests that add the row [[NaN]] leave two rows that hold the one
    NaN object of [json]; the handler of [remove_duplicates] then leaves
    one row. *)
Example remove_duplicates_route_same_NaN :
  let database0 := {| tables := {[ "T" := new_table [("X", Cfloat)] ]} |} in
  let database1 := (add_row_handler database0 "T" (PyList [json_NaN])).2 in
  let database2 := (add_row_handler database1 "T" (PyList [json_NaN])).2 in
  database2
  = {| tables :=
         {[ "T" := {| column_info := [("X", Cfloat)];
                      rows := [ {[ "X" := json_NaN ]};
                                {[ "X" := json_NaN ]} ] |} ]} |}
  ∧ remove_duplicates_route database2 "T"
    = (Return (Message 200),
       {| tables :=
            {[ "T" := {| column_info := [("X", Cfloat)];
                         rows := [ {[ "X" := json_NaN ]} ] |} ]} |}).
Proof. split; reflexivity. Qed.

(** Neither handler catches a [KeyError].  In a table created with the
    column name "A" twice, the second deletion of "A" raises it, and the
    table stays in the database without a column and with its row; after
    the first deletion, so does [remove_duplicates]. *)
Example routes_pass_KeyError :
  let database0 :=
    {| tables := {[ "T" := {| column_info := [("A", Cstr); ("A", Cint)];
                              rows := [ {[ "A" := VInt 1 ]} ] |} ]} |} in
  let database1 := (delete_column_route database0 "T" "A").2 in
  delete_column_route database0 "T" "A"
  = (Return (Message 200),
     {| tables := {[ "T" := {| column_info := [("A", Cint)];
                               rows := [ ∅ ] |} ]} |})
  ∧ delete_column_route database1 "T" "A"
    = (Raise (KeyError "A"),
       {| tables := {[ "T" := {| column_info := []; rows := [ ∅ ] |} ]} |})
  ∧ remove_duplicates_route database1 "T" = (Raise (KeyError "A"), database1).
Proof. split_and!; reflexivity. Qed.

(** X17: a row added through the handler of [POST .../rows] and deleted through
    the handler [delete_row], at the index it was added at: the database is
    as it was before. *)
Theorem add_row_route_then_delete_row (database : Database)
    (table_name : string) (t : DynamicTable) (values : list value) :
  tables database !! table_name = Some t →
  (add_row t values).1 = Return tt →
  (add_row_route database table_name values).1 = Return (Message 201)
  ∧ delete_row (add_row_route database table_name values).2 table_name
      (N.of_nat (length (rows t)))
    = (Message 200, database).
Proof.
  intros Hlookup Hret. unfold add_row_route, answer. rewrite Hlookup, Hret.
  destruct (add_row_cases t values) as (o & Hch & Heq).
  rewrite Heq in Hret |- *. simpl in Hret. subst o. simpl.
  split; [done|]. unfold delete_row, del_rows_item. simpl.
  rewrite lookup_insert_eq. simpl. rewrite py_del_item_nonneg.
  rewrite Nat2N.id, length_app. simpl.
  rewrite decide_True by lia. simpl. f_equal.
  apply Database_eq. simpl.
  rewrite insert_insert_eq, delete_middle, app_nil_r.
  destruct t. by apply insert_id.
Qed.

Lemma add_row_route_then_delete_row_witness :
  let values := [VStr "Dan"; VInt 52; VStr "Boston"; VBool false] in
  (add_row_route database "Table1" values).1 = Return (Message 201)
  ∧ delete_row (add_row_route database "Table1" values).2 "Table1"
      (N.of_nat (length (rows table)))
    = (Message 200, database).
Proof.
  intros values.
  apply (add_row_route_then_delete_row database "Table1" table values);
    reflexivity.
Defined.

(** ** The checks of add_row and update_row *)

Lemma add_row_returns_iff t values :
  (add_row t values).1 = Return tt ↔ all_instances (column_info t) values.
Proof.
  destruct (add_row_cases t values) as (o & Hch & Heq). rewrite Heq. simpl.
  split.
  - intros ->. by inversion Hch.
  - intros Hall. pose proof (add_row_ok t values Hall) as Hok.
    rewrite Heq in Hok. by simplify_eq.
Qed.

(** X19: how [add_row] ends says what was wrong: it returns exactly when every
    value is an instance of the class of its column, position by position;
    it raises ArityMismatch exactly when the number of values is not the
    number of columns; and a TypeMismatch names the column, the class and
    the type of the value of the first position that fails. *)
Theorem add_row_outcome (t : DynamicTable) (values : list value) :
  ((add_row t values).1 = Return tt ↔ all_instances (column_info t) values)
  ∧ ((add_row t values).1 = Raise ArityMismatch
     ↔ length values ≠ length (column_info t))
  ∧ ∀ column_name expected actual,
      (add_row t values).1 = Raise (TypeMismatch column_name expected actual) →
      ∃ j v,
        column_info t !! j = Some (column_name, expected)
        ∧ values !! j = Some v ∧ actual = type_of v
        ∧ isinstance v expected = false
        ∧ all_instances (take j (column_info t)) (take j values).
Proof.
  split; [apply add_row_returns_iff|].
  destruct (add_row_cases t values) as (o & Hch & Heq). rewrite Heq. simpl.
  split.
  - split.
    + intros ->. by inversion Hch.
    + intros Hne. inversion Hch; by subst.
  - intros c expected actual ->.
    inversion Hch as [|j c' ty v Hlen Hj Hv Hi Hall|]; subst. by eauto 10.
Qed.

(** The scenario of the specification: the column [("Name", str)] refuses
    the value [42], an [int], at position 0. *)
Lemma add_row_outcome_witness :
  ∃ j v,
    [("Name", Cstr)] !! j = Some ("Name", Cstr)
    ∧ [VInt 42] !! j = Some v ∧ Cint = type_of v
    ∧ isinstance v Cstr = false
    ∧ all_instances (take j [("Name", Cstr)]) (take j [VInt 42]).
Proof.
  refine (proj2 (proj2 (add_row_outcome (new_table [("Name", Cstr)])
                          [VInt 42])) "Name" Cstr Cint _).
  reflexivity.
Defined.

(** X20: [update_row] looks at the index first: outside the rows it raises
    IndexOutOfBounds whatever the values are.  Within the rows it ends as
    [add_row] ends on the same values. *)
Theorem update_row_checks_like_add_row (t : DynamicTable) (row_index : Z)
    (values : list value) :
  (¬ (0 ≤ row_index < Z.of_nat (length (rows t)))%Z →
   update_row t row_index values = (Raise IndexOutOfBounds, t))
  ∧ ((0 ≤ row_index < Z.of_nat (length (rows t)))%Z →
     (update_row t row_index values).1 = (add_row t values).1).
Proof.
  split; intros Hi.
  - by destruct (update_row_cases t row_index values) as [[_ ->]|[? _]].
  - unfold update_row, add_row.
    replace ((row_index <? 0)%Z || (row_index >=? Z.of_nat (length (rows t)))%Z)
      with false by (symmetry; apply orb_false_iff; lia).
    case_bool_decide; [done|].
    by destruct (validate 0 (column_info t) values []).
Qed.

Lemma update_row_checks_like_add_row_witness :
  update_row table 4 [VInt 1] = (Raise IndexOutOfBounds, table)
  ∧ (update_row table 3 [VInt 1]).1 = (add_row table [VInt 1]).1.
Proof.
  split.
  - apply (update_row_checks_like_add_row table 4 [VInt 1]).
    change (length (rows table)) with 4%nat. lia.
  - apply (update_row_checks_like_add_row table 3 [VInt 1]).
    change (length (rows table)) with 4%nat. lia.
Defined.

Lemma all_instances_snoc columns values column v :
  length values = length columns →
  all_instances (columns ++ [column]) (values ++ [v])
  ↔ all_instances columns values ∧ isinstance v column.2 = true.
Proof.
  intros Hlen. unfold all_instances. split.
  - intros Hall. apply Forall2_app_inv in Hall as [Hall Hlast]; [|done].
    split; [done|]. by apply Forall2_cons_1 in Hlast as [? _].
  - intros [Hall Hi]. apply Forall2_app; [done|]. by repeat constructor.
Qed.

(** X21: after [add_column] has returned, a row needs one value more: values of
    the old number are refused with ArityMismatch, and values with one more
    at the end are accepted exactly when the old values were acceptable
    before and the last one is an instance of the class of the new column. *)
Theorem add_row_after_add_column (t : DynamicTable) (column_name : string)
    (column_type : pyclass) (values : list value) (v : value) :
  (add_column t column_name column_type).1 = Return tt →
  length values = length (column_info t) →
  let t' := (add_column t column_name column_type).2 in
  add_row t' values = (Raise ArityMismatch, t')
  ∧ ((add_row t' (values ++ [v])).1 = Return tt
     ↔ (add_row t values).1 = Return tt ∧ isinstance v column_type = true).
Proof.
  intros Hret Hlen t'. subst t'. unfold add_column in *.
  case_bool_decide; simpl in Hret; [done|]. simpl. split.
  - unfold add_row. simpl. rewrite bool_decide_eq_true_2; [done|].
    rewrite length_app. simpl. lia.
  - rewrite !add_row_returns_iff. simpl.
    by apply (all_instances_snoc _ _ (column_name, column_type)).
Qed.

Lemma add_row_after_add_column_witness :
  let t' := (add_column table "Email" Cstr).2 in
  let values := [VStr "Dan"; VInt 52; VStr "Boston"; VBool false] in
  add_row t' values = (Raise ArityMismatch, t')
  ∧ ((add_row t' (values ++ [VStr "dan@example.org"])).1 = Return tt
     ↔ (add_row table values).1 = Return tt
       ∧ isinstance (VStr "dan@example.org") Cstr = true).
Proof.
  intros t' values.
  apply (add_row_after_add_column table "Email" Cstr values
           (VStr "dan@example.org")); reflexivity.
Defined.
